(** * The CPU manager, the per-core run loop and the GDB stub flags

    A shallow embedding of
      - [CoreManager::RunLoop], [SingleStep], [PrepareReschedule] and
        [Reschedule] (core_manager.cpp, the second document of
        src/core/gdbstub/gdbstub.h),
      - [CpuManager] (src/core/cpu_manager.cpp),
      - the older [CpuCoreManager] (cpu_core_manager.cpp, the second
        document of unnamed/part_001),
      - the part of the GDB stub the run loops consult (the declarations
        of src/core/gdbstub/gdbstub.h),
      - the SVC wrappers (svc_wrap.h, the second document of
        src/core/cpu_manager.cpp).

    Every call that leaves the modelled functions (scheduler, timing,
    physical core, debugger) is recorded in a trace of events, so that
    statements about "what is called, and in which order" are statements
    about lists of events. *)

From Stdlib Require Import ZArith NArith List Bool Lia Sorted.
From stdpp Require Import base option list gmap.
Import ListNotations.

Set Implicit Arguments.

(** ** Handles *)

(** [Kernel::Thread*]: a non-null thread pointer is its address; the null
    pointer is [None] of [option ThreadHandle]. *)
Definition ThreadHandle := nat.

(** [std::thread::id] of a host thread. *)
Definition HostThreadId := nat.

(** [NUM_CPU_CORES]. *)
Definition NUM_CPU_CORES : nat := 4.

(** ** Events: the calls that leave the modelled code *)

Inductive Event : Type :=
  (* HLE::g_hle_lock, taken and released by the std::lock_guard *)
  | EvLockHLE
  | EvUnlockHLE
  (* Kernel::GlobalScheduler and Kernel::Scheduler *)
  | EvSelectThread (core : nat)
  | EvTryDoContextSwitch (core : nat)
  | EvGetCurrentThread (result : option ThreadHandle)
  (* Core::Timing::CoreTiming *)
  | EvTimingIdle
  | EvTimingAdvance
  | EvTimingResetRun
  | EvTimingSwitchContext (core : nat)
  | EvTimingCanCurrentContextRun (result : bool)
  (* Kernel::PhysicalCore *)
  | EvArchRun (core : nat)
  | EvArchStep (core : nat)
  | EvArchStop (core : nat)
  (* GDBStub *)
  | EvGetCpuHaltFlag (result : bool)
  | EvGetThreadStepFlag (thread : ThreadHandle) (result : bool)
  | EvBreak (is_memory_break : bool)
  | EvIsServerEnabled (result : bool)
  | EvIsConnected (result : bool)
  | EvHandlePacket
  (* CpuManager calling into, and destroying, one of its CoreManagers *)
  | EvCoreRunLoop (core : nat) (tight_loop : bool)
  | EvCoreManagerReset (core : nat)
  (* CpuCoreManager: barrier, host threads, map, owned objects *)
  | EvBarrierNotifyEnd
  | EvThreadJoin (index : nat)
  | EvThreadReset (index : nat)
  | EvThreadSpawn (index : nat)
  | EvThreadToCpuClear
  | EvCpuShutdown (core : nat)
  | EvCpuReset (core : nat)
  | EvExclusiveMonitorReset
  | EvBarrierReset.

Definition Trace := list Event.

(** ** A state-and-trace monad with faults *)

Inductive Fault : Type :=
  | OutOfFuel      (* the model's loop budget ran out: the code is still running *)
  | AssertFailed   (* ASSERT(...) did not hold *)
  | NullDeref      (* a null unique_ptr was dereferenced *)
  | OutOfRange     (* an array was indexed past its end *)
  | Terminated.    (* std::terminate: a joinable std::thread was destroyed *)

Inductive Res (A : Type) : Type :=
  | Ok (a : A)
  | Abort (f : Fault).
Arguments Abort {A} f.

Section Exec.
Context {St : Type}.

Definition M (A : Type) : Type := St -> Res A * St * Trace.

Definition ret {A} (a : A) : M A := fun s => (Ok a, s, []).

Definition bind {A B} (m : M A) (k : A -> M B) : M B :=
  fun s =>
    match m s with
    | (Ok a, s1, t1) =>
        match k a s1 with
        | (r, s2, t2) => (r, s2, t1 ++ t2)
        end
    | (Abort f, s1, t1) => (Abort f, s1, t1)
    end.

(** A call that changes the state and returns nothing. *)
Definition call (e : Event) (f : St -> St) : M unit :=
  fun s => (Ok tt, f s, [e]).

(** A call that only reads; its answer is part of the event. *)
Definition ask {A} (q : St -> A) (e : A -> Event) : M A :=
  fun s => (Ok (q s), s, [e (q s)]).

(** Reading and writing the modelled object's own members: no event. *)
Definition gets {A} (q : St -> A) : M A := fun s => (Ok (q s), s, []).
Definition modify (f : St -> St) : M unit := fun s => (Ok tt, f s, []).

Definition abort {A} (f : Fault) : M A := fun s => (Abort f, s, []).

Definition result {A} (x : Res A * St * Trace) : Res A := fst (fst x).
Definition state_of {A} (x : Res A * St * Trace) : St := snd (fst x).
Definition trace_of {A} (x : Res A * St * Trace) : Trace := snd x.
End Exec.
Arguments M St A : clear implicits.

Declare Scope exec_scope.
Delimit Scope exec_scope with exec.
Notation "x <- c1 ;; c2" := (bind c1 (fun x => c2))
  (at level 100, c1 at next level, right associativity) : exec_scope.
Notation "c1 ;; c2" := (bind c1 (fun _ => c2))
  (at level 100, right associativity) : exec_scope.
Open Scope exec_scope.

(** Running a computation on a component of a larger state. *)
Definition lift {Big Small A} (get : Big -> Small) (set : Small -> Big -> Big)
    (m : M Small A) : M Big A :=
  fun b => match m (get b) with
           | (r, s, t) => (r, set s b, t)
           end.

(** ** Settings and the GDB stub state *)

(** [Settings::values], the two keys the managers read.  [gdbstub_loops]
    is a C++ [int]. *)
Record Settings : Type := {
  use_multi_core : bool;
  gdbstub_loops : Z
}.

(** Modelled from the spec: the GDB stub's state (gdbstub.cpp is not part
    of the sources; gdbstub.h only declares the functions).  The fields
    are those of the spec's GdbState. *)
Record GdbState : Type := {
  enabled : bool;
  connected : bool;
  deferred_start : bool;
  halt_flag : bool;
  memory_break : bool;
  per_thread_step : gset ThreadHandle;
  listen_port : Z
}.

(** The whole process: settings, debugger state, and the state [World] of
    the collaborators that are outside the modelled code (scheduler,
    timing, the physical cores, guest memory). *)
Record Sys (World : Type) : Type := {
  settings : Settings;
  gdb : GdbState;
  ext : World
}.

Definition set_gdb {World} (g : GdbState) (s : Sys World) : Sys World :=
  {| settings := settings s; gdb := g; ext := ext s |}.

Module GDBStub.
Section GDBStub.
Context {World : Type}.

(** Modelled from the spec: [GetCpuHaltFlag] reads the global halt flag. *)
Definition GetCpuHaltFlag (s : Sys World) : bool := halt_flag (gdb s).

(** Modelled from the spec: [GetThreadStepFlag(thread)] tells whether the
    thread is in the per-thread step set. *)
Definition GetThreadStepFlag (thread : ThreadHandle) (s : Sys World) : bool :=
  bool_decide (thread ∈ per_thread_step (gdb s)).

(** Modelled from the spec: [Break(is_memory_break)] sets the halt flag
    and records the memory-break flag. *)
Definition Break (is_memory_break : bool) (s : Sys World) : Sys World :=
  set_gdb {| enabled := enabled (gdb s);
             connected := connected (gdb s);
             deferred_start := deferred_start (gdb s);
             halt_flag := true;
             memory_break := is_memory_break;
             per_thread_step := per_thread_step (gdb s);
             listen_port := listen_port (gdb s) |} s.

(** Modelled from the spec: [IsServerEnabled] and [IsConnected] read the
    corresponding flags. *)
Definition IsServerEnabled (s : Sys World) : bool := enabled (gdb s).
Definition IsConnected (s : Sys World) : bool := connected (gdb s).
End GDBStub.
End GDBStub.

(** ** The collaborators

    The scheduler, the timing subsystem, the physical cores and the
    debugger's packet pump are interfaces to the modelled code.  Each is a
    function of the whole process state: a physical core that hits a
    breakpoint may, for instance, call back into the GDB stub. *)
Class Collaborators (World : Type) : Type := {
  (* Kernel::GlobalScheduler::SelectThread(core_index) *)
  SelectThread : nat -> Sys World -> Sys World;
  (* physical_core.Scheduler().TryDoContextSwitch() *)
  TryDoContextSwitch : nat -> Sys World -> Sys World;
  (* Kernel::GetCurrentThread() *)
  GetCurrentThread : Sys World -> option ThreadHandle;
  (* core_timing.Idle(), Advance(), ResetRun(), SwitchContext(i),
     CanCurrentContextRun() *)
  Idle : Sys World -> Sys World;
  Advance : Sys World -> Sys World;
  ResetRun : Sys World -> Sys World;
  SwitchContext : nat -> Sys World -> Sys World;
  CanCurrentContextRun : Sys World -> bool;
  (* physical_core.Run(), Step(), Stop() of the core with that index *)
  Run : nat -> Sys World -> Sys World;
  Step : nat -> Sys World -> Sys World;
  Stop : nat -> Sys World -> Sys World;
  (* GDBStub::HandlePacket() *)
  HandlePacket : Sys World -> Sys World
}.

(** ** CoreManager: the per-core run loop *)

Module CoreManager.
Section CoreManager.
Context {World : Type} `{Collaborators World}.

(** How a block of [RunLoop] is left: by falling out of it, or by the
    [return] statement. *)
Inductive Flow : Type := Fallthrough | Returned.

(** [CoreManager::Reschedule]. *)
Definition Reschedule (core_index : nat) : M (Sys World) unit :=
  call EvLockHLE id ;;
  call (EvSelectThread core_index) (SelectThread core_index) ;;
  call (EvTryDoContextSwitch core_index) (TryDoContextSwitch core_index) ;;
  call EvUnlockHLE id.

(** [CoreManager::PrepareReschedule]. *)
Definition PrepareReschedule (core_index : nat) : M (Sys World) unit :=
  call (EvArchStop core_index) (Stop core_index).

(** [CoreManager::RunLoop]. *)
Definition RunLoop (core_index : nat) (tight_loop : bool) : M (Sys World) unit :=
  Reschedule core_index ;;
  sched_thread <- ask GetCurrentThread EvGetCurrentThread ;;
  flow <-
    match sched_thread with
    | None =>
        call EvTimingIdle Idle ;;
        PrepareReschedule core_index ;;
        ret Fallthrough
    | Some thread =>
        halt <- ask GDBStub.GetCpuHaltFlag EvGetCpuHaltFlag ;;
        if halt then
          Reschedule core_index ;;
          ret Returned
        else
          step <- ask (GDBStub.GetThreadStepFlag thread)
                      (EvGetThreadStepFlag thread) ;;
          tight_loop <-
            (if step then
               call (EvBreak false) (GDBStub.Break false) ;;
               ret false
             else ret tight_loop) ;;
          (if tight_loop then
             call (EvArchRun core_index) (Run core_index)
           else
             call (EvArchStep core_index) (Step core_index)) ;;
          ret Fallthrough
    end ;;
  match flow with
  | Returned => ret tt
  | Fallthrough =>
      call EvTimingAdvance Advance ;;
      Reschedule core_index
  end.

(** [CoreManager::SingleStep]. *)
Definition SingleStep (core_index : nat) : M (Sys World) unit :=
  RunLoop core_index false.
End CoreManager.
End CoreManager.

(** ** CpuManager (cpu_manager.cpp)

    cpu_manager.h is not part of the sources; the members below are read
    off their uses in cpu_manager.cpp. *)

Module CpuManager.

(** A [CoreManager] object.  Its other members are references to the
    scheduler, the physical core and the timing, which live in [Sys]. *)
Record CoreManagerObj : Type := { core_index : nat }.

(** [class CpuManager]: [core_managers] is a
    [std::array<std::unique_ptr<CoreManager>, NUM_CPU_CORES>], a null
    pointer being [None]; [active_core] is a [std::size_t]. *)
Record State (World : Type) : Type := {
  sys : Sys World;
  core_managers : list (option CoreManagerObj);
  active_core : nat
}.

Section CpuManager.
Context {World : Type} `{Collaborators World}.

Definition set_sys (s : Sys World) (m : State World) : State World :=
  {| sys := s; core_managers := core_managers m; active_core := active_core m |}.

Definition set_core_managers (l : list (option CoreManagerObj))
    (m : State World) : State World :=
  {| sys := sys m; core_managers := l; active_core := active_core m |}.

Definition set_active_core (c : nat) (m : State World) : State World :=
  {| sys := sys m; core_managers := core_managers m; active_core := c |}.

(** The system's side of the state, for the calls to the collaborators. *)
Definition in_sys {A} (m : M (Sys World) A) : M (State World) A :=
  lift (@sys World) set_sys m.

(** [*p] and [p->] on an element of an array of [unique_ptr]s. *)
Definition deref {St A} (slot : option (option A)) : M St A :=
  match slot with
  | Some (Some obj) => ret obj
  | Some None => abort NullDeref
  | None => abort OutOfRange
  end.

(** [CpuManager::Initialize]: every slot gets a CoreManager built with its
    own index. *)
Definition Initialize (m : State World) : State World :=
  set_core_managers
    (imap (fun index _ => Some {| core_index := index |}) (core_managers m)) m.

(** [CpuManager::Shutdown]: [cpu_core.reset()] on every slot, in order. *)
Fixpoint Shutdown_from (index : nat) (todo : nat) : M (State World) unit :=
  match todo with
  | 0 => ret tt
  | S todo' =>
      call (EvCoreManagerReset index)
           (fun m => set_core_managers (<[index := None]> (core_managers m)) m) ;;
      Shutdown_from (S index) todo'
  end.

Definition Shutdown : M (State World) unit :=
  n <- gets (fun m => length (core_managers m)) ;;
  Shutdown_from 0 n.

(** [CpuManager::GetCurrentCoreManager]: [*core_managers[active_core]]. *)
Definition GetCurrentCoreManager (m : State World) : Res CoreManagerObj :=
  result (deref (core_managers m !! active_core m) m).

(** The body of the [for] loop of [RunLoop] at the current [active_core],
    followed by [++active_core]; [todo] is [NUM_CPU_CORES - active_core],
    so that the loop test [active_core < NUM_CPU_CORES] is [todo <> 0]. *)
Fixpoint for_active_core (todo : nat) (tight_loop : bool)
    (keep_running : bool) : M (State World) bool :=
  match todo with
  | 0 => ret keep_running
  | S todo' =>
      c <- gets (@active_core World) ;;
      in_sys (call (EvTimingSwitchContext c) (SwitchContext c)) ;;
      can_run <- in_sys (ask CanCurrentContextRun EvTimingCanCurrentContextRun) ;;
      (if can_run then
         core <- (fun m => deref (core_managers m !! c) m) ;;
         in_sys (call (EvCoreRunLoop (core_index core) tight_loop) id ;;
                 CoreManager.RunLoop (core_index core) tight_loop)
       else ret tt) ;;
      can_run_after <-
        in_sys (ask CanCurrentContextRun EvTimingCanCurrentContextRun) ;;
      modify (set_active_core (S c)) ;;
      for_active_core todo' tight_loop (keep_running || can_run_after)
  end.

(** The [do { ... } while (keep_running && (num_loops < max_loops))] of
    [RunLoop].  Each turn of the loop uses one unit of [fuel].  The result
    is the value of the two locals when the loop is left.  [num_loops]
    never exceeds [max_loops] or 1, so the C++ [int] does not wrap. *)
Fixpoint do_while (fuel : nat) (tight_loop : bool) (max_loops num_loops : Z)
    : M (State World) (bool * Z) :=
  match fuel with
  | 0 => abort OutOfFuel
  | S fuel' =>
      modify (set_active_core 0) ;;
      keep_running <- for_active_core NUM_CPU_CORES tight_loop false ;;
      is_connected <- in_sys (ask GDBStub.IsConnected EvIsConnected) ;;
      let num_loops := if is_connected then (num_loops + 1)%Z else num_loops in
      if keep_running && (num_loops <? max_loops)%Z then
        do_while fuel' tight_loop max_loops num_loops
      else ret (keep_running, num_loops)
  end.

(** [CpuManager::RunLoop]. *)
Definition RunLoop (fuel : nat) (tight_loop : bool) : M (State World) unit :=
  server_enabled <- in_sys (ask GDBStub.IsServerEnabled EvIsServerEnabled) ;;
  (if server_enabled then in_sys (call EvHandlePacket HandlePacket)
   else ret tt) ;;
  in_sys (call EvTimingResetRun ResetRun) ;;
  max_loops <- gets (fun m => gdbstub_loops (settings (sys m))) ;;
  do_while fuel tight_loop max_loops 0 ;;
  ret tt.

(** [CpuManager::GetCoreManager(index)]: [*core_managers.at(index)];
    [at] throws [std::out_of_range] past the end of the array. *)
Definition GetCoreManager (index : nat) (m : State World) : Res CoreManagerObj :=
  result (deref (core_managers m !! index) m).

End CpuManager.
End CpuManager.

(** ** CpuCoreManager (cpu_core_manager.cpp), the older manager

    cpu_core_manager.h, core_cpu.h and the barrier's code are not part of
    the sources; the members below are read off their uses in
    cpu_core_manager.cpp. *)

Module CpuCoreManager.

(** Modelled from the spec: the barrier is a latch with the states Open
    and Ending (core_cpu.cpp, which defines CpuBarrier, is not part of the
    sources). *)
Inductive CpuBarrier : Type := Open | Ending.

(** Modelled from the spec: [NotifyEnd] moves Open to Ending and is
    idempotent. *)
Definition NotifyEnd (b : CpuBarrier) : CpuBarrier := Ending.

(** A [Cpu] object, built by [Initialize] with its index. *)
Record Cpu : Type := { core_index : nat }.

(** The object [Cpu::MakeExclusiveMonitor(cores.size())] returns. *)
Record ExclusiveMonitor : Type := { num_cores : nat }.

(** [class CpuCoreManager].  [cores] is an array of [unique_ptr<Cpu>],
    [core_threads] an array of [unique_ptr<std::thread>] (a live thread
    is its id), [thread_to_cpu] a map from [std::thread::id] to [Cpu*];
    a null pointer is [None]. *)
Record State (World : Type) : Type := {
  sys : Sys World;
  cores : list (option Cpu);
  core_threads : list (option HostThreadId);
  thread_to_cpu : gmap HostThreadId (option Cpu);
  barrier : option CpuBarrier;
  exclusive_monitor : option ExclusiveMonitor;
  active_core : nat
}.

Section CpuCoreManager.
Context {World : Type}.

Definition set_cores (l : list (option Cpu)) (m : State World) : State World :=
  {| sys := sys m; cores := l; core_threads := core_threads m;
     thread_to_cpu := thread_to_cpu m; barrier := barrier m;
     exclusive_monitor := exclusive_monitor m; active_core := active_core m |}.

Definition set_core_threads (l : list (option HostThreadId))
    (m : State World) : State World :=
  {| sys := sys m; cores := cores m; core_threads := l;
     thread_to_cpu := thread_to_cpu m; barrier := barrier m;
     exclusive_monitor := exclusive_monitor m; active_core := active_core m |}.

Definition set_thread_to_cpu (t : gmap HostThreadId (option Cpu))
    (m : State World) : State World :=
  {| sys := sys m; cores := cores m; core_threads := core_threads m;
     thread_to_cpu := t; barrier := barrier m;
     exclusive_monitor := exclusive_monitor m; active_core := active_core m |}.

Definition set_barrier (b : option CpuBarrier) (m : State World) : State World :=
  {| sys := sys m; cores := cores m; core_threads := core_threads m;
     thread_to_cpu := thread_to_cpu m; barrier := b;
     exclusive_monitor := exclusive_monitor m; active_core := active_core m |}.

Definition set_exclusive_monitor (x : option ExclusiveMonitor)
    (m : State World) : State World :=
  {| sys := sys m; cores := cores m; core_threads := core_threads m;
     thread_to_cpu := thread_to_cpu m; barrier := barrier m;
     exclusive_monitor := x; active_core := active_core m |}.

(** [*p] on a single [unique_ptr]. *)
Definition deref_ptr {A} (p : option A) : M (State World) A :=
  match p with
  | Some obj => ret obj
  | None => abort NullDeref
  end.

(** [*a[i]] and [a[i]->] on an array of [unique_ptr]s. *)
Definition deref_slot {A} (slot : option (option A)) : M (State World) A :=
  match slot with
  | Some p => deref_ptr p
  | None => abort OutOfRange
  end.

(** [a[i].get()]: the raw pointer held by the slot. *)
Definition get_slot {A} (slot : option (option A)) : M (State World) (option A) :=
  match slot with
  | Some p => ret p
  | None => abort OutOfRange
  end.

(** [CpuCoreManager::Initialize]. *)
Definition Initialize (m : State World) : State World :=
  set_cores
    (imap (fun index _ => Some {| core_index := index |}) (cores m))
    (set_exclusive_monitor (Some {| num_cores := length (cores m) |})
       (set_barrier (Some Open) m)).

(** The [for] loop of [StartThreads]; [new_id index] is the id of the
    host thread created for [core_threads[index]].  The right-hand side
    of [core_threads[index] = std::make_unique<std::thread>(...)] comes
    first: the new thread is running when the assignment destroys what
    the slot held.  A thread held by a slot has not been joined
    ([Shutdown] resets a slot right after the join), and destroying a
    joinable [std::thread] calls [std::terminate]. *)
Fixpoint StartThreads_from (new_id : nat -> HostThreadId) (index todo : nat)
    : M (State World) unit :=
  match todo with
  | 0 => ret tt
  | S todo' =>
      cpu <- (fun m => deref_slot (cores m !! (index + 1)) m) ;;
      call (EvThreadSpawn index) id ;;
      old <- (fun m => get_slot (core_threads m !! index) m) ;;
      match old with
      | Some _ => abort Terminated
      | None =>
          modify (fun m => set_core_threads
                             (<[index := Some (new_id index)]> (core_threads m))
                             m) ;;
          modify (fun m => set_thread_to_cpu
                             (<[new_id index := Some cpu]> (thread_to_cpu m))
                             m) ;;
          StartThreads_from new_id (S index) todo'
      end
  end.

(** [CpuCoreManager::StartThreads], called on host thread [this_thread]. *)
Definition StartThreads (this_thread : HostThreadId)
    (new_id : nat -> HostThreadId) : M (State World) unit :=
  core0 <- (fun m => get_slot (cores m !! 0) m) ;;
  modify (fun m => set_thread_to_cpu
                     (<[this_thread := core0]> (thread_to_cpu m)) m) ;;
  multi_core <- gets (fun m => use_multi_core (settings (sys m))) ;;
  if negb multi_core then ret tt
  else
    n <- gets (fun m => length (core_threads m)) ;;
    StartThreads_from new_id 0 n.

(** [for (auto& thread : core_threads) { thread->join(); thread.reset(); }] *)
Fixpoint join_threads_from (index todo : nat) : M (State World) unit :=
  match todo with
  | 0 => ret tt
  | S todo' =>
      _ <- (fun m => deref_slot (core_threads m !! index) m) ;;
      call (EvThreadJoin index) id ;;
      call (EvThreadReset index)
           (fun m => set_core_threads (<[index := None]> (core_threads m)) m) ;;
      join_threads_from (S index) todo'
  end.

(** [for (auto& cpu_core : cores) { cpu_core->Shutdown(); cpu_core.reset(); }] *)
Fixpoint shutdown_cores_from (index todo : nat) : M (State World) unit :=
  match todo with
  | 0 => ret tt
  | S todo' =>
      cpu <- (fun m => deref_slot (cores m !! index) m) ;;
      call (EvCpuShutdown (core_index cpu)) id ;;
      call (EvCpuReset index)
           (fun m => set_cores (<[index := None]> (cores m)) m) ;;
      shutdown_cores_from (S index) todo'
  end.

(** [CpuCoreManager::Shutdown]. *)
Definition Shutdown : M (State World) unit :=
  b <- (fun m => deref_ptr (barrier m) m) ;;
  call EvBarrierNotifyEnd (set_barrier (Some (NotifyEnd b))) ;;
  multi_core <- gets (fun m => use_multi_core (settings (sys m))) ;;
  (if multi_core then
     n <- gets (fun m => length (core_threads m)) ;;
     join_threads_from 0 n
   else ret tt) ;;
  call EvThreadToCpuClear (set_thread_to_cpu ∅) ;;
  n <- gets (fun m => length (cores m)) ;;
  shutdown_cores_from 0 n ;;
  call EvExclusiveMonitorReset (set_exclusive_monitor None) ;;
  call EvBarrierReset (set_barrier None).

(** [CpuCoreManager::GetCurrentCore], called on host thread
    [this_thread].  A failed [ASSERT] stops the program. *)
Definition GetCurrentCore (this_thread : HostThreadId) : M (State World) Cpu :=
  multi_core <- gets (fun m => use_multi_core (settings (sys m))) ;;
  if multi_core then
    search <- gets (fun m => thread_to_cpu m !! this_thread) ;;
    match search with
    | None => abort AssertFailed            (* search == thread_to_cpu.end() *)
    | Some None => abort AssertFailed       (* search->second is null *)
    | Some (Some cpu) => ret cpu
    end
  else
    (fun m => deref_slot (cores m !! active_core m) m).

(** [CpuCoreManager::GetCore(index)]: [*cores.at(index)]; [at] throws
    [std::out_of_range] past the end of the array. *)
Definition GetCore (index : nat) : M (State World) Cpu :=
  fun m => deref_slot (cores m !! index) m.

(** [CpuCoreManager::GetExclusiveMonitor]: [*exclusive_monitor]. *)
Definition GetExclusiveMonitor : M (State World) ExclusiveMonitor :=
  fun m => deref_ptr (exclusive_monitor m) m.

Definition set_sys (s : Sys World) (m : State World) : State World :=
  {| sys := s; cores := cores m; core_threads := core_threads m;
     thread_to_cpu := thread_to_cpu m; barrier := barrier m;
     exclusive_monitor := exclusive_monitor m; active_core := active_core m |}.

Definition set_active_core (c : nat) (m : State World) : State World :=
  {| sys := sys m; cores := cores m; core_threads := core_threads m;
     thread_to_cpu := thread_to_cpu m; barrier := barrier m;
     exclusive_monitor := exclusive_monitor m; active_core := c |}.

(** The system's side of the state, for the calls to the collaborators. *)
Definition in_sys {A} (m : M (Sys World) A) : M (State World) A :=
  lift (@sys World) set_sys m.

End CpuCoreManager.

Section OlderRunLoop.
Context {World : Type} `{Collaborators World}.

(** [Cpu::RunLoop(tight_loop)] of the [Cpu] with the given index.
    core_cpu.cpp is not part of the sources, so the function is a
    parameter of the manager's loop. *)
Variable Cpu_RunLoop : nat -> bool -> M (Sys World) unit.

(** The [for] loop of [CpuCoreManager::RunLoop] from the current
    [active_core] on; [todo] is [NUM_CPU_CORES - active_core]. *)
Fixpoint for_active_core (todo : nat) (tight_loop : bool)
    (keep_running : bool) : M (State World) bool :=
  match todo with
  | 0 => ret keep_running
  | S todo' =>
      c <- gets (@active_core World) ;;
      in_sys (call (EvTimingSwitchContext c) (SwitchContext c)) ;;
      can_run <- in_sys (ask CanCurrentContextRun EvTimingCanCurrentContextRun) ;;
      (if can_run then
         cpu <- (fun m => deref_slot (cores m !! c) m) ;;
         in_sys (call (EvCoreRunLoop (core_index cpu) tight_loop) id ;;
                 Cpu_RunLoop (core_index cpu) tight_loop)
       else ret tt) ;;
      can_run_after <-
        in_sys (ask CanCurrentContextRun EvTimingCanCurrentContextRun) ;;
      modify (set_active_core (S c)) ;;
      for_active_core todo' tight_loop (keep_running || can_run_after)
  end.

(** The [do { ... } while (keep_running)] of [CpuCoreManager::RunLoop];
    each turn uses one unit of [fuel]. *)
Fixpoint do_while (fuel : nat) (tight_loop : bool) : M (State World) unit :=
  match fuel with
  | 0 => abort OutOfFuel
  | S fuel' =>
      in_sys (call EvHandlePacket HandlePacket) ;;
      modify (set_active_core 0) ;;
      keep_running <- for_active_core NUM_CPU_CORES tight_loop false ;;
      if keep_running then do_while fuel' tight_loop else ret tt
  end.

(** [CpuCoreManager::RunLoop], called on host thread [this_thread]. *)
Definition RunLoop (this_thread : HostThreadId) (fuel : nat)
    (tight_loop : bool) : M (State World) unit :=
  core0 <- (fun m => get_slot (cores m !! 0) m) ;;
  modify (fun m => set_thread_to_cpu
                     (<[this_thread := core0]> (thread_to_cpu m)) m) ;;
  in_sys (call EvTimingResetRun ResetRun) ;;
  do_while fuel tight_loop.

End OlderRunLoop.
End CpuCoreManager.

(** ** The SVC wrappers (svc_wrap.h, the second document of
    src/core/cpu_manager.cpp)

    A wrapper reads the arguments of a supervisor call from the registers
    of the current core, calls the handler and writes the results back.
    Registers hold [u64] values, modelled as [Z]; arm_interface.h is not
    part of the sources, so the register file is an interface.  The
    wrappers differ only in the handler's signature; the ones below cover
    every shape: plain arguments, arguments that are cast, one and two
    out-parameters, and a handler that returns nothing. *)

Module Kernel.

(** [ARM_Interface::GetReg(int)] and [SetReg(int, u64)] of
    [system.CurrentArmInterface()]. *)
Class ArmInterface (System : Type) : Type := {
  GetReg : Z -> System -> Z;
  SetReg : Z -> Z -> System -> System
}.

(** What a [u32], [u64], [s32] or [s64] holds that is given the integer
    [x]: the value of [static_cast], and of a store to a variable of the
    type. *)
Definition to_u32 (x : Z) : Z := (x mod 2 ^ 32)%Z.
Definition to_u64 (x : Z) : Z := (x mod 2 ^ 64)%Z.
Definition to_s32 (x : Z) : Z := ((x + 2 ^ 31) mod 2 ^ 32 - 2 ^ 31)%Z.
Definition to_s64 (x : Z) : Z := ((x + 2 ^ 63) mod 2 ^ 64 - 2 ^ 63)%Z.

Section SvcWrap.
Context {System : Type} `{ArmInterface System}.

(** [Param(system, n)]. *)
Definition Param (n : Z) (system : System) : Z := GetReg n system.

(** [FuncReturn(system, result)]. *)
Definition FuncReturn (result : Z) (system : System) : System :=
  SetReg 0 result system.

(** A handler takes the system and its arguments, and returns the [raw]
    value of its [ResultCode] (a [u32]) with the system it leaves.  For
    an argument passed by pointer it takes the value the pointer's target
    holds at the call and returns the value it stores there. *)

(** [SvcWrap<ResultCode func(Core::System&, u64)>]. *)
Definition SvcWrap_u64 (func : System -> Z -> Z * System)
    (system : System) : System :=
  let '(raw, system) := func system (Param 0 system) in
  FuncReturn (to_u32 raw) system.

(** [SvcWrap<ResultCode func(Core::System&, u32)>]. *)
Definition SvcWrap_u32 (func : System -> Z -> Z * System)
    (system : System) : System :=
  let '(raw, system) := func system (to_u32 (Param 0 system)) in
  FuncReturn (to_u32 raw) system.

(** [SvcWrap<ResultCode func(Core::System&, u32* param)>]: [param] and
    [retval] are [u32] variables. *)
Definition SvcWrap_pu32 (func : System -> Z -> Z * Z * System)
    (system : System) : System :=
  let param := 0%Z in
  let '(raw, param, system) := func system param in
  let retval := to_u32 raw in
  let system := SetReg 1 (to_u32 param) system in
  FuncReturn retval system.

(** [SvcWrap<ResultCode func(Core::System&, u32* param_1, u32* param_2)>]. *)
Definition SvcWrap_pu32_pu32 (func : System -> Z -> Z -> Z * Z * Z * System)
    (system : System) : System :=
  let param_1 := 0%Z in
  let param_2 := 0%Z in
  let '(raw, param_1, param_2, system) := func system param_1 param_2 in
  let retval := to_u32 raw in
  let system := SetReg 1 (to_u32 param_1) system in
  let system := SetReg 2 (to_u32 param_2) system in
  FuncReturn retval system.

(** [SvcWrap<ResultCode func(Core::System&, u32, u32* param_1,
    u64* param_2)>]: the [u32] argument is read from register 2. *)
Definition SvcWrap_u32_pu32_pu64
    (func : System -> Z -> Z -> Z -> Z * Z * Z * System)
    (system : System) : System :=
  let param_1 := 0%Z in
  let param_2 := 0%Z in
  let '(raw, param_1, param_2, system) :=
    func system (to_u32 (Param 2 system)) param_1 param_2 in
  let system := SetReg 1 (to_u32 param_1) system in
  let system := SetReg 2 (to_u64 param_2) system in
  FuncReturn (to_u32 raw) system.

(** [SvcWrap<ResultCode func(Core::System&, u32* param_1, u64, u64, s64)>]:
    the third argument, a [u64], is given [static_cast<u32>] of
    register 2. *)
Definition SvcWrap_pu32_u64_u64_s64
    (func : System -> Z -> Z -> Z -> Z -> Z * Z * System)
    (system : System) : System :=
  let param_1 := 0%Z in
  let '(raw, param_1, system) :=
    func system param_1 (Param 1 system) (to_u32 (Param 2 system))
         (to_s64 (Param 3 system)) in
  let retval := to_u32 raw in
  let system := SetReg 1 (to_u32 param_1) system in
  FuncReturn retval system.

(** [SvcWrap<ResultCode func(Core::System&, u64, u32, s32, s64)>]. *)
Definition SvcWrap_u64_u32_s32_s64
    (func : System -> Z -> Z -> Z -> Z -> Z * System)
    (system : System) : System :=
  let '(raw, system) :=
    func system (Param 0 system) (to_u32 (Param 1 system))
         (to_s32 (Param 2 system)) (to_s64 (Param 3 system)) in
  FuncReturn (to_u32 raw) system.

(** [SvcWrap<void func(Core::System&, u64, s32)>]. *)
Definition SvcWrap_void_u64_s32 (func : System -> Z -> Z -> System)
    (system : System) : System :=
  func system (Param 0 system) (to_s32 (Param 1 system)).

End SvcWrap.
End Kernel.

(** ** The breakpoint table of the GDB stub *)

Module BreakpointType.
(** [enum class BreakpointType] (gdbstub.h). *)
Inductive t : Type := None | Execute | Read | Write | Access.

Definition eqb (a b : t) : bool :=
  match a, b with
  | None, None | Execute, Execute | Read, Read
  | Write, Write | Access, Access => true
  | _, _ => false
  end.
End BreakpointType.

(** [struct BreakpointAddress] (gdbstub.h); [VAddr] is a [u64]. *)
Record BreakpointAddress : Type := {
  address : N;
  type : BreakpointType.t
}.

(** Modelled from the spec: the breakpoint table (gdbstub.cpp is not part
    of the sources) is a collection of breakpoints keyed by address and
    type, ordered by address. *)
Definition BreakpointTable := list BreakpointAddress.

(** Modelled from the spec: [GetNextBreakpointFromAddress(addr, type)]
    walks the address-ordered table up to the first breakpoint of the
    given type at or after [addr]; without one the answer is the sentinel
    with address 0 and type None. *)
Definition GetNextBreakpointFromAddress (table : BreakpointTable) (addr : N)
    (ty : BreakpointType.t) : BreakpointAddress :=
  match List.find (fun b => BreakpointType.eqb (type b) ty && (addr <=? address b)%N)
                  table with
  | Some b => b
  | None => {| address := 0%N; type := BreakpointType.None |}
  end.

(** ** A small concrete machine, used to run the model

    At most one guest thread is current; the scheduler counts its
    selections; timing lets contexts run while [slices] is positive and
    [Advance] uses one slice up; the physical cores count the
    instructions they execute. *)

Module Demo.

Record World : Type := {
  current : option ThreadHandle;
  selections : nat;
  slices : nat;
  executed : nat
}.

Definition on_ext (f : World -> World) (s : Sys World) : Sys World :=
  {| settings := settings s; gdb := gdb s; ext := f (ext s) |}.

#[global] Instance machine : Collaborators World := {|
  SelectThread := fun _ => on_ext (fun w => {| current := current w;
                                               selections := S (selections w);
                                               slices := slices w;
                                               executed := executed w |});
  TryDoContextSwitch := fun _ s => s;
  GetCurrentThread := fun s => current (ext s);
  Idle := fun s => s;
  Advance := on_ext (fun w => {| current := current w;
                                 selections := selections w;
                                 slices := pred (slices w);
                                 executed := executed w |});
  ResetRun := fun s => s;
  SwitchContext := fun _ s => s;
  CanCurrentContextRun := fun s => negb (Nat.eqb (slices (ext s)) 0);
  Run := fun _ => on_ext (fun w => {| current := current w;
                                      selections := selections w;
                                      slices := slices w;
                                      executed := executed w + 10 |});
  Step := fun _ => on_ext (fun w => {| current := current w;
                                       selections := selections w;
                                       slices := slices w;
                                       executed := executed w + 1 |});
  Stop := fun _ s => s;
  HandlePacket := fun s => s
|}.

Definition gdb_state (is_enabled is_connected halt : bool)
    (stepping : gset ThreadHandle) : GdbState :=
  {| enabled := is_enabled; connected := is_connected;
     deferred_start := false; halt_flag := halt; memory_break := false;
     per_thread_step := stepping; listen_port := 24689 |}.

Definition system (loops : Z) (g : GdbState) (thread : option ThreadHandle)
    (budget : nat) : Sys World :=
  {| settings := {| use_multi_core := false; gdbstub_loops := loops |};
     gdb := g;
     ext := {| current := thread; selections := 0; slices := budget;
               executed := 0 |} |}.

Definition manager (s : Sys World) : CpuManager.State World :=
  CpuManager.Initialize
    {| CpuManager.sys := s;
       CpuManager.core_managers := [None; None; None; None];
       CpuManager.active_core := 0 |}.

Definition core_manager (s : Sys World) : CpuCoreManager.State World :=
  CpuCoreManager.Initialize
    {| CpuCoreManager.sys := s;
       CpuCoreManager.cores := [None; None; None; None];
       CpuCoreManager.core_threads := [None; None; None];
       CpuCoreManager.thread_to_cpu := ∅;
       CpuCoreManager.barrier := None;
       CpuCoreManager.exclusive_monitor := None;
       CpuCoreManager.active_core := 0 |}.

(** Host thread ids: 100 is the manager's own thread, 101.. the helpers. *)
Definition helper_id (index : nat) : HostThreadId := 101 + index.

(** Guest thread 7 is current and stepping is requested for it. *)
Definition stepping : Sys World :=
  system 5 (gdb_state true true false {[7]}) (Some 7) 3.

(** Guest thread 7 is current and the debugger has halted the CPU. *)
Definition halted : Sys World :=
  system 5 (gdb_state true true true ∅) (Some 7) 3.

(** No guest thread is current; the debugger has halted the CPU. *)
Definition idle_halted : Sys World :=
  system 5 (gdb_state true true true ∅) None 3.

(** Managers whose cores can run for a long time (100 slices) ... *)
Definition connected_one_loop : CpuManager.State World :=
  manager (system 1 (gdb_state true true false ∅) (Some 7) 100).

Definition connected_three_loops : CpuManager.State World :=
  manager (system 3 (gdb_state true true false ∅) (Some 7) 100).



(** ... and one whose cores run out of slices in the second rotation. *)
Definition six_slices : CpuManager.State World :=
  manager (system 5 (gdb_state true false false ∅) (Some 7) 6).

(** The older manager in multi-core mode, after [StartThreads] on host
    thread 100. *)
Definition multi_core_system : Sys World :=
  {| settings := {| use_multi_core := true; gdbstub_loops := 5 |};
     gdb := gdb_state false false false ∅;
     ext := {| current := None; selections := 0; slices := 0;
               executed := 0 |} |}.

Definition started_multi_core : CpuCoreManager.State World :=
  state_of (CpuCoreManager.StartThreads 100 helper_id
              (core_manager multi_core_system)).

(** A breakpoint table in address order. *)
Definition breakpoints : BreakpointTable :=
  [ {| address := 0x1000; type := BreakpointType.Execute |};
    {| address := 0x1000; type := BreakpointType.Write |};
    {| address := 0x2000; type := BreakpointType.Read |};
    {| address := 0x3000; type := BreakpointType.Execute |} ].

(** Guest thread 7 is current; the debugger neither halts nor steps. *)
Definition free_running : Sys World :=
  system 5 (gdb_state true true false ∅) (Some 7) 3.

(** A manager entered while the debugger has halted the CPU. *)
Definition halted_manager : CpuManager.State World := manager halted.

(** A manager whose timing has no slice left: no context may run. *)
Definition out_of_slices : CpuManager.State World :=
  manager (system 5 (gdb_state false true false ∅) (Some 7) 0).

(** The older manager in single-core mode, with six time slices. *)
Definition single_core : CpuCoreManager.State World :=
  core_manager (system 5 (gdb_state false false false ∅) (Some 7) 6).

(** The older manager in multi-core mode, before [StartThreads]. *)
Definition multi_core : CpuCoreManager.State World :=
  core_manager multi_core_system.

(** A register file as a function from register numbers to values. *)
Definition Registers : Type := Z -> Z.

#[global] Instance registers : Kernel.ArmInterface Registers := {|
  Kernel.GetReg := fun n regs => regs n;
  Kernel.SetReg := fun n v regs k => if (k =? n)%Z then v else regs k
|}.

(** Every register holds ten times its number, but X2, which holds the
    handle 9 below a set bit of the upper half. *)
Definition handle_in_X2 : Registers :=
  fun n => if (n =? 2)%Z then (2 ^ 32 + 9)%Z else (10 * n)%Z.

(** A handler with two [u32] out-parameters: it succeeds and stores 7
    and 8. *)
Definition two_results (system : Registers) (param_1 param_2 : Z)
    : Z * Z * Z * Registers :=
  (0%Z, 7%Z, 8%Z, system).

(** A handler that takes a handle and returns it through its first
    out-parameter, with a 64-bit value in the second. *)
Definition handle_info (system : Registers) (handle param_1 param_2 : Z)
    : Z * Z * Z * Registers :=
  (0%Z, handle, (2 ^ 40)%Z, system).

End Demo.

(** * Vocabulary of the statements *)

(** ** Kinds of events *)

Definition is_arch_run (e : Event) : bool :=
  match e with EvArchRun _ => true | _ => false end.

Definition is_arch_step (e : Event) : bool :=
  match e with EvArchStep _ => true | _ => false end.

Definition is_timing_idle (e : Event) : bool :=
  match e with EvTimingIdle => true | _ => false end.

Definition is_timing_advance (e : Event) : bool :=
  match e with EvTimingAdvance => true | _ => false end.

Definition is_halt_query (e : Event) : bool :=
  match e with EvGetCpuHaltFlag _ => true | _ => false end.

(** How often a kind of event occurs in a trace. *)
Definition occurrences (kind : Event -> bool) (tr : Trace) : nat :=
  length (List.filter kind tr).

(** ** One slice of a core *)

Section SliceVocabulary.
Context {World : Type} `{Collaborators World}.

(** The state [CoreManager::Reschedule] leaves. *)
Definition rescheduled (core : nat) (s : Sys World) : Sys World :=
  TryDoContextSwitch core (SelectThread core s).

(** The events of one call of [CoreManager::Reschedule]. *)
Definition Reschedule_trace (core : nat) : Trace :=
  [EvLockHLE; EvSelectThread core; EvTryDoContextSwitch core; EvUnlockHLE].

(** The scheduler of a core does not write the debugger's state. *)
Definition scheduler_leaves_gdb (core : nat) : Prop :=
  (forall s, gdb (SelectThread core s) = gdb s) /\
  (forall s, gdb (TryDoContextSwitch core s) = gdb s).

(** A collaborator that may set the halt flag but never clears it. *)
Definition keeps_halt (f : Sys World -> Sys World) : Prop :=
  forall s, halt_flag (gdb s) = true -> halt_flag (gdb (f s)) = true.

End SliceVocabulary.

(** ** The manager's rotation over the cores *)

(** The events of [CpuManager::RunLoop] itself, as opposed to those of
    the [CoreManager::RunLoop] calls it makes. *)
Definition manager_event (e : Event) : bool :=
  match e with
  | EvTimingResetRun | EvTimingSwitchContext _
  | EvTimingCanCurrentContextRun _ | EvIsServerEnabled _ | EvIsConnected _
  | EvHandlePacket | EvCoreRunLoop _ _ => true
  | _ => false
  end.

Definition manager_view (tr : Trace) : Trace := List.filter manager_event tr.

Definition is_rotation_start (e : Event) : bool :=
  match e with EvTimingSwitchContext 0 => true | _ => false end.

Definition is_connected_answer (e : Event) : bool :=
  match e with EvIsConnected true => true | _ => false end.

Definition is_disconnected_answer (e : Event) : bool :=
  match e with EvIsConnected false => true | _ => false end.

(** How many rotations a trace starts: core 0 is switched in once per
    rotation. *)
Definition rotation_count (tr : Trace) : nat := occurrences is_rotation_start tr.



(** The grammar of the manager's view.  A trace is given with what
    follows it: [visit tight c k t rest] says that [t] is one turn of the
    [for] loop for core [c] followed by [rest]; [k] is the second answer
    of [CanCurrentContextRun], the one or-ed into [keep_running]. *)
Inductive visit (tight : bool) (c : nat) : bool -> Trace -> Trace -> Prop :=
  | visit_run k rest :
      visit tight c k
        (EvTimingSwitchContext c :: EvTimingCanCurrentContextRun true
           :: EvCoreRunLoop c tight :: EvTimingCanCurrentContextRun k :: rest)
        rest
  | visit_skip k rest :
      visit tight c k
        (EvTimingSwitchContext c :: EvTimingCanCurrentContextRun false
           :: EvTimingCanCurrentContextRun k :: rest)
        rest.

(** [visits tight c todo k k' t rest]: the cores [c], [c+1], ...,
    [c+todo-1] are visited in this order; [keep_running] is [k] before
    and [k'] after. *)
Inductive visits (tight : bool) :
    nat -> nat -> bool -> bool -> Trace -> Trace -> Prop :=
  | visits_done c k rest : visits tight c 0 k k rest rest
  | visits_next c todo k k_core k' t t1 rest :
      visit tight c k_core t t1 ->
      visits tight (S c) todo (k || k_core) k' t1 rest ->
      visits tight c (S todo) k k' t rest.

(** One rotation: cores 0, 1, 2, 3, then the [IsConnected] query. *)
Definition rotation (tight keep_running is_connected : bool)
    (t rest : Trace) : Prop :=
  visits tight 0 NUM_CPU_CORES false keep_running t
         (EvIsConnected is_connected :: rest).

(** [num_loops] after a rotation. *)
Definition counted (is_connected : bool) (num_loops : Z) : Z :=
  if is_connected then (num_loops + 1)%Z else num_loops.

(** Whether a run has come back. *)
Definition returned {A} (r : Res A) : bool :=
  match r with Ok _ => true | Abort _ => false end.

(** A sequence of rotations that makes up the trace.  [again keep_running
    num_loops] decides, after each rotation, whether another follows.
    In [rotations tight again finished n t], [n] is [num_loops] at the
    start of [t]; [finished] tells whether the loop was left (after a
    rotation with [again ... = false]) or is still going on (the trace
    stops where the next rotation is due). *)
Inductive rotations (tight : bool) (again : bool -> Z -> bool) :
    bool -> Z -> Trace -> Prop :=
  | rotations_pending n :
      rotations tight again false n []
  | rotations_last n k conn t :
      rotation tight k conn t [] ->
      again k (counted conn n) = false ->
      rotations tight again true n t
  | rotations_more finished n k conn t rest :
      rotation tight k conn t rest ->
      again k (counted conn n) = true ->
      rotations tight again finished (counted conn n) rest ->
      rotations tight again finished n t.

(** The rule of the code: [keep_running && (num_loops < max_loops)]. *)
Definition again_bounded (max_loops : Z) (keep_running : bool)
    (num_loops : Z) : bool :=
  keep_running && (num_loops <? max_loops)%Z.

(** The rule "while some core could run". *)
Definition again_while_runnable (keep_running : bool) (num_loops : Z) : bool :=
  keep_running.

Section ManagerVocabulary.
Context {World : Type} `{Collaborators World}.

(** The manager after [Initialize]: slot [i] holds the CoreManager of
    index [i]. *)
Definition initialized (m : CpuManager.State World) : Prop :=
  CpuManager.core_managers m =
    map (fun i => Some {| CpuManager.core_index := i |}) (seq 0 NUM_CPU_CORES).

(** What [CpuManager::RunLoop] does before its loop. *)
Definition entered (s : Sys World) : Sys World :=
  ResetRun (if GDBStub.IsServerEnabled s then HandlePacket s else s).

Definition prologue_trace (s : Sys World) : Trace :=
  EvIsServerEnabled (GDBStub.IsServerEnabled s)
    :: (if GDBStub.IsServerEnabled s then [EvHandlePacket] else [])
    ++ [EvTimingResetRun].

(** [max_loops], read from the settings when the loop is entered. *)
Definition loop_bound (s : Sys World) : Z := gdbstub_loops (settings (entered s)).

(** "[RunLoop] is its prologue and then rotations over the cores 0, 1,
    2, 3, repeated as [again] says": it returns, or is still running when
    the budget of the model is used up, and what it has done is the
    prologue followed by such rotations. *)
Definition dispatches (again : bool -> Z -> bool) (fuel : nat) (tight : bool)
    (m : CpuManager.State World) : Prop :=
  let x := CpuManager.RunLoop fuel tight m in
  (result x = Ok tt \/ result x = Abort OutOfFuel) /\
  exists body,
    manager_view (trace_of x) = prologue_trace (CpuManager.sys m) ++ body /\
    rotations tight again (returned (result x)) 0 body.

End ManagerVocabulary.

(** ** The older manager's shutdown *)

Section ShutdownVocabulary.
Context {World : Type}.
Import CpuCoreManager.

(** The manager between [StartThreads] and [Shutdown]: the barrier and
    the four [Cpu]s exist and, in multi-core mode, so do the three helper
    threads. *)
Record running (m : State World) : Prop := {
  running_barrier : is_Some (barrier m);
  running_cores :
    cores m = map (fun i => Some {| core_index := i |}) (seq 0 NUM_CPU_CORES);
  running_threads :
    use_multi_core (settings (sys m)) = true ->
    exists t1 t2 t3, core_threads m = [Some t1; Some t2; Some t3];
  running_threads_length : length (core_threads m) = 3
}.

End ShutdownVocabulary.

(** Joining and releasing the three helper threads. *)
Definition join_trace : Trace :=
  [EvThreadJoin 0; EvThreadReset 0; EvThreadJoin 1; EvThreadReset 1;
   EvThreadJoin 2; EvThreadReset 2].

(** Shutting down and destroying the four [Cpu]s. *)
Definition destroy_cores_trace : Trace :=
  [EvCpuShutdown 0; EvCpuReset 0; EvCpuShutdown 1; EvCpuReset 1;
   EvCpuShutdown 2; EvCpuReset 2; EvCpuShutdown 3; EvCpuReset 3].

(** ** The breakpoint table *)

(** The table's invariant: it is in address order. *)
Definition table_sorted (table : BreakpointTable) : Prop :=
  StronglySorted (fun a b => (address a <= address b)%N) table.

(** What a query looks for: a breakpoint of type [ty] at or after [addr]. *)
Definition candidate (addr : N) (ty : BreakpointType.t)
    (b : BreakpointAddress) : Prop :=
  type b = ty /\ (addr <= address b)%N.

(** ** Further kinds of events *)

Definition is_break (e : Event) : bool :=
  match e with EvBreak _ => true | _ => false end.

Definition is_arch_stop (e : Event) : bool :=
  match e with EvArchStop _ => true | _ => false end.

Definition is_lock (e : Event) : bool :=
  match e with EvLockHLE => true | _ => false end.

Definition is_select_thread (e : Event) : bool :=
  match e with EvSelectThread _ => true | _ => false end.

Definition is_handle_packet (e : Event) : bool :=
  match e with EvHandlePacket => true | _ => false end.

Definition is_reset_run (e : Event) : bool :=
  match e with EvTimingResetRun => true | _ => false end.

(** The core an event of the scheduler or of a physical core is about. *)
Definition event_core (e : Event) : option nat :=
  match e with
  | EvSelectThread c | EvTryDoContextSwitch c
  | EvArchRun c | EvArchStep c | EvArchStop c => Some c
  | _ => None
  end.

(** No event of the trace is about a core other than [core]. *)
Definition only_core (core : nat) (tr : Trace) : Prop :=
  Forall (fun e => event_core e = None \/ event_core e = Some core) tr.

(** ** The discipline of the HLE lock

    The scheduler calls of [Reschedule] need the lock; every other event
    is to happen without it.  [lock_step held e] is the state of the lock
    after [e], or [None] when [e] breaks the discipline: the lock taken
    twice, released when free, a scheduler call without it, or any other
    call with it. *)
Definition needs_lock (e : Event) : bool :=
  match e with
  | EvSelectThread _ | EvTryDoContextSwitch _ => true
  | _ => false
  end.

Definition lock_step (held : bool) (e : Event) : option bool :=
  match e with
  | EvLockHLE => if held then None else Some true
  | EvUnlockHLE => if held then Some false else None
  | _ => if Bool.eqb (needs_lock e) held then Some held else None
  end.

Fixpoint lock_run (held : bool) (tr : Trace) : option bool :=
  match tr with
  | [] => Some held
  | e :: tr' =>
      match lock_step held e with
      | Some held' => lock_run held' tr'
      | None => None
      end
  end.

(** The trace starts and ends with the lock free and keeps the
    discipline throughout. *)
Definition well_locked (tr : Trace) : Prop := lock_run false tr = Some false.

(** ** A halted or blocked system *)

Section HaltVocabulary.
Context {World : Type} `{Collaborators World}.

(** None of the collaborators a halted slice passes through clears the
    halt flag (the debugger's packet pump, which may, is not among
    them). *)
Definition halt_respected : Prop :=
  (forall c, keeps_halt (SelectThread c)) /\
  (forall c, keeps_halt (TryDoContextSwitch c)) /\
  keeps_halt Idle /\
  keeps_halt Advance /\
  (forall c, keeps_halt (Stop c)) /\
  (forall c, keeps_halt (SwitchContext c)).

(** [Blocked] holds of systems in which timing lets no context run, and
    switching the context does not change that. *)
Definition blocks (Blocked : Sys World -> Prop) : Prop :=
  (forall s, Blocked s -> CanCurrentContextRun s = false) /\
  (forall c s, Blocked s -> Blocked (SwitchContext c s)).

End HaltVocabulary.

(** A rotation in which no core may run. *)
Definition blocked_rotation : Trace :=
  flat_map (fun c => [EvTimingSwitchContext c;
                      EvTimingCanCurrentContextRun false;
                      EvTimingCanCurrentContextRun false])
           (seq 0 NUM_CPU_CORES).

(** ** The older manager *)

Section OlderManagerVocabulary.
Context {World : Type}.
Import CpuCoreManager.

(** The four [Cpu]s exist, slot [i] holding the one built with index [i]
    (the state [Initialize] leaves them in). *)
Definition cores_built (m : State World) : Prop :=
  cores m = map (fun i => Some {| core_index := i |}) (seq 0 NUM_CPU_CORES).

(** A [Cpu::RunLoop] that returns and leaves the manager's own calls
    (context switches, [CanCurrentContextRun], the packet pump, ...) to
    the manager. *)
Definition quiet_cpu (Cpu_RunLoop : nat -> bool -> M (Sys World) unit) : Prop :=
  forall core tight s,
    result (Cpu_RunLoop core tight s) = Ok tt /\
    manager_view (trace_of (Cpu_RunLoop core tight s)) = [].

End OlderManagerVocabulary.

(** The manager's view of the older [RunLoop]: every rotation starts with
    [HandlePacket] and is followed by another exactly when
    [CanCurrentContextRun] answered true after some core's turn.  The
    Boolean tells whether the loop was left. *)
Inductive older_rotations (tight : bool) : bool -> Trace -> Prop :=
  | older_rotations_pending :
      older_rotations tight false []
  | older_rotations_last t :
      visits tight 0 NUM_CPU_CORES false false t [] ->
      older_rotations tight true (EvHandlePacket :: t)
  | older_rotations_more finished t rest :
      visits tight 0 NUM_CPU_CORES false true t rest ->
      older_rotations tight finished rest ->
      older_rotations tight finished (EvHandlePacket :: t).

(** ** The register file *)

Section RegisterVocabulary.
Context {System : Type} `{Kernel.ArmInterface System}.

(** The register file of a core: a register holds what was last written
    to it, and writing one register leaves the others alone. *)
Definition register_file : Prop :=
  (forall n v (s : System), Kernel.GetReg n (Kernel.SetReg n v s) = v) /\
  (forall n n' v (s : System),
     n <> n' -> Kernel.GetReg n' (Kernel.SetReg n v s) = Kernel.GetReg n' s).

End RegisterVocabulary.

(** * Theorems *)

(** ** The monad *)

Section ExecFacts.
Context {St : Type}.

Lemma triple_eta {A} (x : Res A * St * Trace) :
  x = (result x, state_of x, trace_of x).
Proof. destruct x as [[r s] t]. reflexivity. Qed.

End ExecFacts.

(** ** CoreManager::RunLoop *)

Section CoreManagerFacts.
Context {World : Type} `{Collaborators World}.
Import CoreManager.

Lemma Reschedule_exec core s :
  Reschedule core s = (Ok tt, rescheduled core s, Reschedule_trace core).
Proof. reflexivity. Qed.

(** The three ways through [RunLoop], by what it reads after its first
    [Reschedule]. *)
Lemma RunLoop_no_thread core tight s :
  GetCurrentThread (rescheduled core s) = None ->
  RunLoop core tight s =
    (Ok tt,
     rescheduled core (Advance (Stop core (Idle (rescheduled core s)))),
     Reschedule_trace core
       ++ [EvGetCurrentThread None; EvTimingIdle; EvArchStop core;
           EvTimingAdvance]
       ++ Reschedule_trace core).
Proof.
  intros E. unfold RunLoop.
  cbv [bind Reschedule call ask ret PrepareReschedule id].
  fold (rescheduled core s). rewrite E. reflexivity.
Qed.

Lemma RunLoop_halted core tight s thread :
  GetCurrentThread (rescheduled core s) = Some thread ->
  GDBStub.GetCpuHaltFlag (rescheduled core s) = true ->
  RunLoop core tight s =
    (Ok tt,
     rescheduled core (rescheduled core s),
     Reschedule_trace core
       ++ [EvGetCurrentThread (Some thread); EvGetCpuHaltFlag true]
       ++ Reschedule_trace core).
Proof.
  intros E1 E2. unfold RunLoop.
  cbv [bind Reschedule call ask ret PrepareReschedule id].
  fold (rescheduled core s). rewrite E1, E2. reflexivity.
Qed.

Lemma RunLoop_executing core tight s thread :
  GetCurrentThread (rescheduled core s) = Some thread ->
  GDBStub.GetCpuHaltFlag (rescheduled core s) = false ->
  let s1 := rescheduled core s in
  let step := GDBStub.GetThreadStepFlag thread s1 in
  let s2 := if step then GDBStub.Break false s1 else s1 in
  let run := if step then false else tight in
  RunLoop core tight s =
    (Ok tt,
     rescheduled core
       (Advance (if run then Run core s2 else Step core s2)),
     Reschedule_trace core
       ++ [EvGetCurrentThread (Some thread); EvGetCpuHaltFlag false;
           EvGetThreadStepFlag thread step]
       ++ (if step then [EvBreak false] else [])
       ++ [if run then EvArchRun core else EvArchStep core; EvTimingAdvance]
       ++ Reschedule_trace core).
Proof.
  intros E1 E2. cbv zeta. unfold RunLoop.
  cbv [bind Reschedule call ask ret PrepareReschedule id].
  fold (rescheduled core s). rewrite E1, E2.
  destruct (GDBStub.GetThreadStepFlag thread (rescheduled core s));
    [| destruct tight]; reflexivity.
Qed.

Lemma scheduler_leaves_gdb_rescheduled core s :
  scheduler_leaves_gdb core -> gdb (rescheduled core s) = gdb s.
Proof.
  intros [Hsel Hsw]. unfold rescheduled. rewrite Hsw. apply Hsel.
Qed.

Lemma scheduler_keeps_halt core :
  scheduler_leaves_gdb core -> keeps_halt (rescheduled core).
Proof.
  intros Hs s Hh. rewrite scheduler_leaves_gdb_rescheduled; assumption.
Qed.

(** C1: when the halt flag is set on entry (and the scheduler, which
    runs before the flag is read, does not clear it) and the scheduler
    yields a current thread, [RunLoop] does its first [Reschedule], reads
    the thread and the flag, does a second [Reschedule] and returns:
    [ArchCore.Run], [ArchCore.Step], [Timing.Advance] and [Timing.Idle]
    do not occur. *)
Theorem RunLoop_halted_only_reschedules core tight (s : Sys World) thread :
  keeps_halt (SelectThread core) ->
  keeps_halt (TryDoContextSwitch core) ->
  GDBStub.GetCpuHaltFlag s = true ->
  GetCurrentThread (rescheduled core s) = Some thread ->
  let x := RunLoop core tight s in
  result x = Ok tt /\
  state_of x = rescheduled core (rescheduled core s) /\
  trace_of x =
    Reschedule_trace core
      ++ [EvGetCurrentThread (Some thread); EvGetCpuHaltFlag true]
      ++ Reschedule_trace core /\
  occurrences is_arch_run (trace_of x) = 0 /\
  occurrences is_arch_step (trace_of x) = 0 /\
  occurrences is_timing_advance (trace_of x) = 0 /\
  occurrences is_timing_idle (trace_of x) = 0.
Proof.
  intros Hsel Hsw Hh Ht x. subst x.
  rewrite (RunLoop_halted core tight s Ht).
  - repeat split; reflexivity.
  - apply Hsw, Hsel, Hh.
Qed.

(** C2: when the halt flag is clear on entry, the scheduler yields a
    current thread T and the step flag of T is set, [RunLoop] calls
    [Break(false)], then takes the non-tight path whatever [tight_loop]
    is: exactly one [ArchCore.Step] and no [ArchCore.Run]; the halt flag
    is set when it returns. *)
Theorem RunLoop_step_flag_breaks_then_steps_once core tight (s : Sys World)
    thread :
  scheduler_leaves_gdb core ->
  keeps_halt (Step core) ->
  keeps_halt Advance ->
  GDBStub.GetCpuHaltFlag s = false ->
  GetCurrentThread (rescheduled core s) = Some thread ->
  GDBStub.GetThreadStepFlag thread s = true ->
  let x := RunLoop core tight s in
  result x = Ok tt /\
  trace_of x =
    Reschedule_trace core
      ++ [EvGetCurrentThread (Some thread); EvGetCpuHaltFlag false;
          EvGetThreadStepFlag thread true;
          EvBreak false; EvArchStep core; EvTimingAdvance]
      ++ Reschedule_trace core /\
  state_of x =
    rescheduled core
      (Advance (Step core (GDBStub.Break false (rescheduled core s)))) /\
  occurrences is_arch_step (trace_of x) = 1 /\
  occurrences is_arch_run (trace_of x) = 0 /\
  GDBStub.GetCpuHaltFlag (state_of x) = true.
Proof.
  intros Hs Hstep Hadv Hh Ht Hf x. subst x.
  assert (Eg : gdb (rescheduled core s) = gdb s)
    by (apply scheduler_leaves_gdb_rescheduled; assumption).
  assert (Hh1 : GDBStub.GetCpuHaltFlag (rescheduled core s) = false)
    by (unfold GDBStub.GetCpuHaltFlag; rewrite Eg; exact Hh).
  assert (Hf1 : GDBStub.GetThreadStepFlag thread (rescheduled core s) = true)
    by (unfold GDBStub.GetThreadStepFlag; rewrite Eg; exact Hf).
  pose proof (RunLoop_executing core tight s Ht Hh1) as E.
  cbv zeta in E. rewrite Hf1 in E. rewrite E.
  repeat split; try reflexivity.
  unfold GDBStub.GetCpuHaltFlag, state_of; cbn [fst snd].
  apply (scheduler_keeps_halt Hs), Hadv, Hstep. reflexivity.
Qed.

(** C3: when the scheduler yields no current thread, [RunLoop] calls
    [Timing.Idle] exactly once, then [PrepareReschedule] (which stops the
    physical core), and returns after a final [Reschedule]; neither
    [ArchCore.Run] nor [ArchCore.Step] occurs. *)
Theorem RunLoop_idles_without_thread core tight (s : Sys World) :
  GetCurrentThread (rescheduled core s) = None ->
  let x := RunLoop core tight s in
  result x = Ok tt /\
  trace_of x =
    Reschedule_trace core
      ++ [EvGetCurrentThread None; EvTimingIdle; EvArchStop core;
          EvTimingAdvance]
      ++ Reschedule_trace core /\
  occurrences is_timing_idle (trace_of x) = 1 /\
  occurrences is_arch_run (trace_of x) = 0 /\
  occurrences is_arch_step (trace_of x) = 0.
Proof.
  intros Ht x. subst x. rewrite (RunLoop_no_thread core tight s Ht).
  repeat split; reflexivity.
Qed.

(** C8: on every path, [RunLoop] returns; the first thing it does is a
    [Reschedule] from the state it was entered in, and the last thing it
    does before it returns is a [Reschedule], which leaves the final
    state. *)
Theorem RunLoop_bounded_by_Reschedule core tight (s : Sys World) :
  exists middle before_last,
    result (RunLoop core tight s) = Ok tt /\
    trace_of (RunLoop core tight s) =
      trace_of (Reschedule core s) ++ middle
        ++ trace_of (Reschedule core before_last) /\
    state_of (RunLoop core tight s) = state_of (Reschedule core before_last).
Proof.
  destruct (GetCurrentThread (rescheduled core s)) as [thread|] eqn:Ht.
  - destruct (GDBStub.GetCpuHaltFlag (rescheduled core s)) eqn:Hh.
    + rewrite (RunLoop_halted core tight s Ht Hh).
      eexists _, _. repeat split; reflexivity.
    + pose proof (RunLoop_executing core tight s Ht Hh) as E.
      cbv zeta in E. rewrite E.
      set (step := GDBStub.GetThreadStepFlag thread (rescheduled core s)).
      exists ([EvGetCurrentThread (Some thread); EvGetCpuHaltFlag false;
               EvGetThreadStepFlag thread step]
                ++ (if step then [EvBreak false] else [])
                ++ [if (if step then false else tight)
                    then EvArchRun core else EvArchStep core;
                    EvTimingAdvance]).
      eexists. split; [reflexivity|]. split; [|reflexivity].
      cbn [trace_of snd]. rewrite !Reschedule_exec. cbn [snd].
      rewrite <- !app_assoc. reflexivity.
  - rewrite (RunLoop_no_thread core tight s Ht).
    eexists _, _. repeat split; reflexivity.
Qed.

(** C10: without a current thread the halt flag is never read: whatever
    its value, [RunLoop] calls [Timing.Idle] and, later, [Timing.Advance]. *)
Theorem RunLoop_idle_path_ignores_halt_flag core tight (s : Sys World) :
  GetCurrentThread (rescheduled core s) = None ->
  let x := RunLoop core tight s in
  (exists before between after,
     trace_of x =
       before ++ EvTimingIdle :: between ++ EvTimingAdvance :: after) /\
  occurrences is_halt_query (trace_of x) = 0 /\
  state_of x =
    rescheduled core (Advance (Stop core (Idle (rescheduled core s)))).
Proof.
  intros Ht x. subst x. rewrite (RunLoop_no_thread core tight s Ht).
  split; [|split; reflexivity].
  exists (Reschedule_trace core ++ [EvGetCurrentThread None]),
         [EvArchStop core], (Reschedule_trace core).
  reflexivity.
Qed.

End CoreManagerFacts.

(** ** Counting events *)

Lemma occurrences_app kind t1 t2 :
  occurrences kind (t1 ++ t2) = occurrences kind t1 + occurrences kind t2.
Proof. unfold occurrences. rewrite List.filter_app. apply length_app. Qed.

Lemma occurrences_cons kind e t :
  occurrences kind (e :: t) = (if kind e then 1 else 0) + occurrences kind t.
Proof. unfold occurrences. cbn [List.filter]. destruct (kind e); reflexivity. Qed.

Lemma occurrences_manager_view kind tr :
  (forall e, kind e = true -> manager_event e = true) ->
  occurrences kind (manager_view tr) = occurrences kind tr.
Proof.
  intros Hk. induction tr as [|e tr IH]; [reflexivity|].
  unfold manager_view. cbn [List.filter]. fold (manager_view tr).
  destruct (manager_event e) eqn:He.
  - rewrite !occurrences_cons, IH. reflexivity.
  - rewrite occurrences_cons, IH.
    destruct (kind e) eqn:Hke; [|reflexivity].
    rewrite (Hk e Hke) in He. discriminate He.
Qed.

(** In the visits of the cores [c], ..., [c+todo-1] a kind of event that
    is neither a [CanCurrentContextRun] nor a call of a core's [RunLoop]
    occurs as often as among the context switches. *)
Lemma visits_occurrences kind tight c todo k k' v rest :
  (forall b, kind (EvTimingCanCurrentContextRun b) = false) ->
  (forall core t, kind (EvCoreRunLoop core t) = false) ->
  visits tight c todo k k' v rest ->
  occurrences kind v =
    occurrences kind (map EvTimingSwitchContext (seq c todo))
      + occurrences kind rest.
Proof.
  intros Hcan Hrun Hv. induction Hv as [|c todo k kc k' t t1 rest Hvis _ IH].
  - reflexivity.
  - cbn [seq map]. rewrite (occurrences_cons kind (EvTimingSwitchContext c)).
    rewrite <- Nat.add_assoc, <- IH.
    destruct Hvis; rewrite !occurrences_cons, ?Hcan, ?Hrun; reflexivity.
Qed.

(** ** CpuManager::RunLoop *)

Section CpuManagerFacts.
Context {World : Type} `{Collaborators World}.
Import CpuManager.

Lemma core_RunLoop_returns core tight (s : Sys World) :
  result (CoreManager.RunLoop core tight s) = Ok tt /\
  manager_view (trace_of (CoreManager.RunLoop core tight s)) = [].
Proof.
  destruct (GetCurrentThread (rescheduled core s)) as [thread|] eqn:Ht.
  - destruct (GDBStub.GetCpuHaltFlag (rescheduled core s)) eqn:Hh.
    + rewrite (RunLoop_halted core tight s Ht Hh). split; reflexivity.
    + pose proof (RunLoop_executing core tight s Ht Hh) as E.
      cbv zeta in E. rewrite E. split; [reflexivity|].
      destruct (GDBStub.GetThreadStepFlag thread (rescheduled core s));
        [|destruct tight]; reflexivity.
  - rewrite (RunLoop_no_thread core tight s Ht). split; reflexivity.
Qed.

Lemma manager_view_app t1 t2 :
  manager_view (t1 ++ t2) = manager_view t1 ++ manager_view t2.
Proof. apply List.filter_app. Qed.

Lemma initialized_lookup (m : State World) c :
  initialized m -> c < NUM_CPU_CORES ->
  core_managers m !! c = Some (Some {| core_index := c |}).
Proof.
  unfold initialized. intros -> Hc.
  do 4 (destruct c as [|c]; [reflexivity|]).
  unfold NUM_CPU_CORES in Hc. lia.
Qed.

(** One turn of the [for] loop. *)
Lemma for_active_core_step todo tight keep (m : State World) :
  initialized m -> active_core m < NUM_CPU_CORES ->
  let c := active_core m in
  let s1 := SwitchContext c (sys m) in
  let can := CanCurrentContextRun s1 in
  let s2 := if can then state_of (CoreManager.RunLoop c tight s1) else s1 in
  let k := CanCurrentContextRun s2 in
  let m2 := set_active_core (S c) (set_sys s2 m) in
  let y := for_active_core todo tight (keep || k) m2 in
  for_active_core (S todo) tight keep m =
    (result y, state_of y,
     EvTimingSwitchContext c :: EvTimingCanCurrentContextRun can
       :: (if can then EvCoreRunLoop c tight
                         :: trace_of (CoreManager.RunLoop c tight s1)
           else [])
       ++ EvTimingCanCurrentContextRun k :: trace_of y).
Proof.
  intros Hi Hc. cbv zeta.
  cbn [for_active_core].
  cbv [bind in_sys lift gets modify call ask ret id].
  cbn [sys set_sys set_active_core core_managers active_core].
  destruct (CanCurrentContextRun (SwitchContext (active_core m) (sys m))) eqn:Hcan.
  - cbn [sys set_sys set_active_core core_managers active_core].
    rewrite (initialized_lookup Hi Hc). cbn [deref]. cbv [ret].
    cbn [core_index sys set_sys set_active_core core_managers active_core].
    destruct (core_RunLoop_returns (active_core m) tight
                (SwitchContext (active_core m) (sys m))) as [Hr _].
    destruct (CoreManager.RunLoop (active_core m) tight
                (SwitchContext (active_core m) (sys m))) as [[r s'] t] eqn:E.
    cbn [result fst] in Hr. subst r.
    cbn [sys set_sys set_active_core core_managers active_core state_of
         trace_of fst snd app].
    match goal with |- context [for_active_core todo tight ?kk ?mm] =>
      rewrite (triple_eta (for_active_core todo tight kk mm)) end.
    reflexivity.
  - cbn [sys set_sys set_active_core core_managers active_core state_of
         trace_of fst snd app].
    match goal with |- context [for_active_core todo tight ?kk ?mm] =>
      rewrite (triple_eta (for_active_core todo tight kk mm)) end.
    reflexivity.
Qed.

Lemma initialized_set_sys (m : State World) s :
  initialized m -> initialized (set_sys s m).
Proof. exact id. Qed.

Lemma initialized_set_active_core (m : State World) c :
  initialized m -> initialized (set_active_core c m).
Proof. exact id. Qed.

(** The [for] loop from core [active_core m] on: it returns, leaves the
    manager initialized, and its view is the visits of the remaining
    cores in increasing order. *)
Lemma for_active_core_runs tight todo : forall keep (m : State World),
  initialized m -> active_core m + todo = NUM_CPU_CORES ->
  exists keep' m' t,
    for_active_core todo tight keep m = (Ok keep', m', t) /\
    initialized m' /\
    forall rest,
      visits tight (active_core m) todo keep keep' (manager_view t ++ rest) rest.
Proof.
  induction todo as [|todo IH]; intros keep m Hi Hc.
  - exists keep, m, []. repeat split; [assumption|]. intros rest. constructor.
  - assert (Hlt : active_core m < NUM_CPU_CORES) by lia.
    rewrite (for_active_core_step todo tight keep Hi Hlt).
    set (c := active_core m).
    set (s1 := SwitchContext c (sys m)).
    set (s2 := if CanCurrentContextRun s1
               then state_of (CoreManager.RunLoop c tight s1) else s1).
    set (m2 := set_active_core (S c) (set_sys s2 m)).
    destruct (IH (keep || CanCurrentContextRun s2) m2) as (k' & m' & t & E & Hi' & Hv).
    { apply initialized_set_active_core, initialized_set_sys, Hi. }
    { subst m2 c. cbn [active_core set_active_core]. lia. }
    rewrite E. cbn [result state_of trace_of fst snd].
    eexists _, _, _. split; [reflexivity|]. split; [exact Hi'|].
    intros rest. specialize (Hv rest).
    change (active_core m2) with (S c) in Hv.
    econstructor; [|exact Hv].
    destruct (core_RunLoop_returns c tight s1) as [_ Hview].
    destruct (CanCurrentContextRun s1).
    + cbn [manager_view List.filter manager_event app].
      fold (manager_view
              (trace_of (CoreManager.RunLoop c tight s1)
                 ++ EvTimingCanCurrentContextRun (CanCurrentContextRun s2) :: t)).
      rewrite manager_view_app, Hview. cbn. constructor.
    + cbn. constructor.
Qed.

(** One turn of the [do ... while]. *)
Lemma do_while_step fuel tight max_loops n (m : State World) :
  initialized m ->
  exists keep m1 t,
    for_active_core NUM_CPU_CORES tight false (set_active_core 0 m)
      = (Ok keep, m1, t) /\
    initialized m1 /\
    (forall rest, visits tight 0 NUM_CPU_CORES false keep
                         (manager_view t ++ rest) rest) /\
    let conn := GDBStub.IsConnected (sys m1) in
    let n1 := counted conn n in
    do_while (S fuel) tight max_loops n m =
      if again_bounded max_loops keep n1 then
        let y := do_while fuel tight max_loops n1 m1 in
        (result y, state_of y, t ++ EvIsConnected conn :: trace_of y)
      else (Ok (keep, n1), m1, t ++ [EvIsConnected conn]).
Proof.
  intros Hi.
  destruct (for_active_core_runs tight NUM_CPU_CORES false
              (m := set_active_core 0 m)) as (keep & m1 & t & E & Hi1 & Hv).
  { exact Hi. }
  { reflexivity. }
  exists keep, m1, t. split; [exact E|]. split; [exact Hi1|].
  split; [exact Hv|]. cbv zeta.
  cbn [do_while].
  unfold bind at 1. cbv [modify].
  unfold bind at 1. rewrite E.
  cbv [bind in_sys lift ask]. cbn [sys set_sys].
  unfold again_bounded, counted.
  replace (set_sys (sys m1) m1) with m1 by (destruct m1; reflexivity).
  destruct (keep && _)%bool.
  - rewrite (triple_eta (do_while fuel tight max_loops _ _)) at 1.
    reflexivity.
  - reflexivity.
Qed.


Lemma RunLoop_exec fuel tight (m : State World) :
  let y := do_while fuel tight (loop_bound (sys m)) 0
             (set_sys (entered (sys m)) m) in
  RunLoop fuel tight m =
    (match result y with Ok _ => Ok tt | Abort f => Abort f end,
     state_of y, prologue_trace (sys m) ++ trace_of y).
Proof.
  intros y. subst y. unfold RunLoop, loop_bound, entered, prologue_trace.
  cbv [bind in_sys lift ask gets call ret].
  cbn [sys set_sys].
  destruct (GDBStub.IsServerEnabled (sys m)); cbn [sys set_sys];
    match goal with |- context [set_sys ?s1 m] =>
      set (y := do_while fuel tight (gdbstub_loops (settings s1)) 0
                  (set_sys s1 m));
      match goal with |- context [do_while fuel tight ?b 0%Z ?mm] =>
        change (do_while fuel tight b 0%Z mm) with y end
    end;
    destruct y as [[[kn|f] s2] t2]; cbn [result state_of trace_of fst snd app];
    rewrite ?app_nil_r; reflexivity.
Qed.

Lemma do_while_rotations tight max_loops fuel : forall n (m : State World),
  initialized m ->
  let x := do_while fuel tight max_loops n m in
  ((exists kn, result x = Ok kn) \/ result x = Abort OutOfFuel) /\
  rotations tight (again_bounded max_loops) (returned (result x)) n
            (manager_view (trace_of x)).
Proof.
  induction fuel as [|fuel IH]; intros n m Hi x; subst x.
  - split; [right; reflexivity | constructor].
  - destruct (do_while_step fuel tight max_loops n Hi)
      as (keep & m1 & t & E & Hi1 & Hv & Estep).
    cbv zeta in Estep. rewrite Estep. clear Estep.
    destruct (again_bounded max_loops keep _) eqn:Ha.
    + cbn [result trace_of fst snd].
      destruct (IH (counted (GDBStub.IsConnected (sys m1)) n) m1 Hi1)
        as [Hres Hrots].
      split; [exact Hres|].
      rewrite manager_view_app.
      change (manager_view (?e :: ?l)) with (e :: manager_view l).
      eapply rotations_more; [apply Hv | exact Ha | exact Hrots].
    + split; [left; eexists; reflexivity|].
      cbn [trace_of snd result fst returned]. rewrite manager_view_app.
      eapply rotations_last; [apply Hv | exact Ha].
Qed.

(** What one rotation contributes to the counts. *)
Lemma rotation_occurrences tight keep (t : Trace) :
  (forall rest, visits tight 0 NUM_CPU_CORES false keep
                       (manager_view t ++ rest) rest) ->
  rotation_count t = 1 /\
  occurrences is_connected_answer t = 0 /\
  occurrences is_disconnected_answer t = 0.
Proof.
  intros Hv. specialize (Hv []). rewrite app_nil_r in Hv.
  unfold rotation_count.
  rewrite <- (occurrences_manager_view is_rotation_start t),
          <- (occurrences_manager_view is_connected_answer t),
          <- (occurrences_manager_view is_disconnected_answer t).
  - rewrite (visits_occurrences is_rotation_start) with (1 := fun _ => eq_refl)
                                                       (2 := fun _ _ => eq_refl) (3 := Hv).
    rewrite (visits_occurrences is_connected_answer) with (1 := fun _ => eq_refl)
                                                       (2 := fun _ _ => eq_refl) (3 := Hv).
    rewrite (visits_occurrences is_disconnected_answer) with (1 := fun _ => eq_refl)
                                                       (2 := fun _ _ => eq_refl) (3 := Hv).
    repeat split; reflexivity.
  - intros [] He; try discriminate He; reflexivity.
  - intros [] He; try discriminate He; reflexivity.
  - intros [] He; try discriminate He; reflexivity.
Qed.





Lemma manager_view_prologue (s : Sys World) :
  manager_view (prologue_trace s) = prologue_trace s.
Proof. unfold prologue_trace. destruct (GDBStub.IsServerEnabled s); reflexivity. Qed.

Lemma occurrences_prologue kind (s : Sys World) :
  kind (EvIsServerEnabled (GDBStub.IsServerEnabled s)) = false ->
  kind EvHandlePacket = false ->
  kind EvTimingResetRun = false ->
  occurrences kind (prologue_trace s) = 0.
Proof.
  intros H1 H2 H3. unfold prologue_trace.
  destruct (GDBStub.IsServerEnabled s); cbn [app];
    rewrite !occurrences_cons, ?H1, ?H2, ?H3; reflexivity.
Qed.

Lemma RunLoop_result_Ok fuel tight (m : State World) :
  result (RunLoop fuel tight m) = Ok tt <->
  exists kn,
    result (do_while fuel tight (loop_bound (sys m)) 0
              (set_sys (entered (sys m)) m)) = Ok kn.
Proof.
  rewrite RunLoop_exec. cbn [result fst].
  destruct (result (do_while _ _ _ _ _)) as [kn|f].
  - split; eauto.
  - split; [discriminate|]. intros [kn Hk]. discriminate Hk.
Qed.

Lemma RunLoop_outcome fuel tight (m : State World) :
  initialized m ->
  let x := RunLoop fuel tight m in
  let y := do_while fuel tight (loop_bound (sys m)) 0
             (set_sys (entered (sys m)) m) in
  (result x = Ok tt \/ result x = Abort OutOfFuel) /\
  returned (result x) = returned (result y).
Proof.
  intros Hi. cbv zeta. rewrite RunLoop_exec. cbn [result fst].
  destruct (do_while_rotations tight (loop_bound (sys m)) fuel 0
              (m := set_sys (entered (sys m)) m) Hi) as [[[kn ->] | ->] _];
    split; auto.
Qed.

(** The rotations and the budget: the loop makes a rotation per unit of
    budget; it is out of budget only after as many rotations as the
    budget has units, and when it returns it has made at least one. *)
Lemma do_while_budget tight max_loops fuel : forall n (m : State World),
  initialized m ->
  let x := do_while fuel tight max_loops n m in
  (result x = Abort OutOfFuel -> rotation_count (trace_of x) = fuel) /\
  ((exists kn, result x = Ok kn) -> 1 <= rotation_count (trace_of x) <= fuel).
Proof.
  induction fuel as [|fuel IH]; intros n m Hi x; subst x.
  - split; [reflexivity|]. intros [kn Hk]. discriminate Hk.
  - destruct (do_while_step fuel tight max_loops n Hi)
      as (keep & m1 & t & E & Hi1 & Hv & Estep).
    cbv zeta in Estep. rewrite Estep. clear Estep.
    destruct (rotation_occurrences t Hv) as (Hcount & _ & _).
    unfold rotation_count in *.
    destruct (again_bounded max_loops keep _).
    + cbn [result trace_of fst snd].
      destruct (IH (counted (GDBStub.IsConnected (sys m1)) n) m1 Hi1)
        as [Hout Hback].
      rewrite occurrences_app, occurrences_cons, Hcount.
      cbn [is_rotation_start].
      split.
      * intros Hr. rewrite (Hout Hr). reflexivity.
      * intros Hr. specialize (Hback Hr). lia.
    + cbn [result trace_of fst snd].
      rewrite occurrences_app, Hcount. cbn.
      split; [discriminate | intros _; lia].
Qed.

(** C4 (amended): [RunLoop] is the prologue and then rotations; each
    rotation switches to the cores 0, 1, 2, 3 in this order, calls the
    core's [RunLoop] exactly when [CanCurrentContextRun] answered true
    after the switch, and is followed by another rotation exactly when
    [CanCurrentContextRun] answered true after some core's turn and
    [num_loops], which counts the rotations that ended with the debugger
    connected, is still below [gdbstub_loops].  The rotations are made:
    a run that is still going on when the budget of the model is used up
    has made exactly as many rotations as the budget has units, and a run
    that has returned has made at least one. *)
Theorem RunLoop_dispatches_cores_in_order fuel tight (m : State World) :
  initialized m ->
  let x := RunLoop fuel tight m in
  dispatches (again_bounded (loop_bound (sys m))) fuel tight m /\
  (result x = Abort OutOfFuel -> rotation_count (trace_of x) = fuel) /\
  (result x = Ok tt -> 1 <= rotation_count (trace_of x) <= fuel).
Proof.
  intros Hi. cbv zeta.
  destruct (do_while_budget tight (loop_bound (sys m)) fuel 0
              (m := set_sys (entered (sys m)) m) Hi) as [Hout Hback].
  assert (Hcount :
    rotation_count (trace_of (RunLoop fuel tight m)) =
    rotation_count
      (trace_of (do_while fuel tight (loop_bound (sys m)) 0
                   (set_sys (entered (sys m)) m)))).
  { rewrite RunLoop_exec. cbn [trace_of snd]. unfold rotation_count.
    rewrite occurrences_app, occurrences_prologue by reflexivity.
    reflexivity. }
  split; [|split].
  - unfold dispatches. cbv zeta.
    destruct (RunLoop_outcome fuel tight Hi) as [Hres Hret].
    split; [exact Hres|].
    rewrite Hret, RunLoop_exec. cbn [trace_of snd].
    eexists. split.
    + rewrite manager_view_app, manager_view_prologue. reflexivity.
    + apply do_while_rotations. exact Hi.
  - intros Hr. rewrite Hcount. apply Hout.
    rewrite RunLoop_exec in Hr. cbn [result fst] in Hr.
    destruct (result (do_while _ _ _ _ _)) as [kn|f];
      [discriminate Hr | congruence].
  - intros Hr. rewrite Hcount. apply Hback.
    apply RunLoop_result_Ok. exact Hr.
Qed.

End CpuManagerFacts.


(** Taking a concrete manager-level trace apart. *)
Ltac invert_visits :=
  repeat match goal with
         | Hx : visits _ _ (S _) _ _ _ _ |- _ => inversion Hx; subst; clear Hx
         | Hx : visits _ _ 0 _ _ _ _ |- _ => inversion Hx; subst; clear Hx
         | Hx : visit _ _ _ _ _ |- _ => inversion Hx; subst; clear Hx
         end.

Ltac invert_rotations R :=
  let Hrot := fresh "Hrot" in
  let Ha := fresh "Ha" in
  let Hrest := fresh "Hrest" in
  inversion R as [? | ? ? ? ? Hrot Ha | ? ? ? ? ? ? Hrot Ha Hrest]; subst;
  try (unfold rotation, NUM_CPU_CORES in Hrot; invert_visits).

(** An instance of the C4 theorem: with six time slices and the debugger
    not connected, three rotations. *)
Lemma RunLoop_dispatches_cores_in_order_witness :
  dispatches (again_bounded 5) 10 true Demo.six_slices /\
  result (CpuManager.RunLoop 10 true Demo.six_slices) = Ok tt /\
  rotation_count (trace_of (CpuManager.RunLoop 10 true Demo.six_slices)) = 3.
Proof.
  split.
  - refine (proj1 (RunLoop_dispatches_cores_in_order 10 true
                     (m := Demo.six_slices) _)).
    reflexivity.
  - split; vm_compute; reflexivity.
Defined.

(** C4 as stated fails: with the debugger connected and
    [gdbstub_loops = 1], every core can run after the first rotation and
    yet [RunLoop] returns after it. *)
Lemma RunLoop_stops_at_loop_bound_while_runnable :
  initialized Demo.connected_one_loop /\
  result (CpuManager.RunLoop 10 true Demo.connected_one_loop) = Ok tt /\
  rotation_count
    (trace_of (CpuManager.RunLoop 10 true Demo.connected_one_loop)) = 1 /\
  ~ dispatches again_while_runnable 10 true Demo.connected_one_loop.
Proof.
  split; [reflexivity|]. split; [vm_compute; reflexivity|].
  split; [vm_compute; reflexivity|].
  intros (_ & body & E & R).
  vm_compute in E. injection E as <-. vm_compute in R.
  invert_rotations R.
  - discriminate.
  - match goal with Hx : rotations _ _ _ _ [] |- _ => invert_rotations Hx end.
Qed.



(** ** Instances of the CoreManager theorems on the concrete machine *)

(** C1 at work: thread 7 current on core 2, CPU halted by the debugger. *)
Lemma RunLoop_halted_only_reschedules_witness :
  let x := CoreManager.RunLoop 2 true Demo.halted in
  trace_of x =
    [EvLockHLE; EvSelectThread 2; EvTryDoContextSwitch 2; EvUnlockHLE;
     EvGetCurrentThread (Some 7); EvGetCpuHaltFlag true;
     EvLockHLE; EvSelectThread 2; EvTryDoContextSwitch 2; EvUnlockHLE] /\
  occurrences is_arch_run (trace_of x) = 0 /\
  occurrences is_arch_step (trace_of x) = 0.
Proof.
  destruct (RunLoop_halted_only_reschedules 2 true Demo.halted
              (thread := 7))
    as (_ & _ & Htrace & Hrun & Hstep & _).
  - intros s Hs. exact Hs.
  - intros s Hs. exact Hs.
  - reflexivity.
  - reflexivity.
  - repeat split; assumption.
Defined.

(** C2 at work (scenario S3): thread 7 current on core 2 with its step
    flag set, halt flag clear, [RunLoop(true)]. *)
Lemma RunLoop_step_flag_breaks_then_steps_once_witness :
  let x := CoreManager.RunLoop 2 true Demo.stepping in
  trace_of x =
    [EvLockHLE; EvSelectThread 2; EvTryDoContextSwitch 2; EvUnlockHLE;
     EvGetCurrentThread (Some 7); EvGetCpuHaltFlag false;
     EvGetThreadStepFlag 7 true; EvBreak false; EvArchStep 2;
     EvTimingAdvance;
     EvLockHLE; EvSelectThread 2; EvTryDoContextSwitch 2; EvUnlockHLE] /\
  occurrences is_arch_step (trace_of x) = 1 /\
  GDBStub.GetCpuHaltFlag (state_of x) = true.
Proof.
  destruct (RunLoop_step_flag_breaks_then_steps_once (core := 2) true
              Demo.stepping (thread := 7))
    as (_ & Htrace & _ & Hstep & _ & Hhalt).
  - split; reflexivity.
  - intros s Hs. exact Hs.
  - intros s Hs. exact Hs.
  - reflexivity.
  - reflexivity.
  - vm_compute. reflexivity.
  - repeat split; assumption.
Defined.

(** C3 at work (scenario S1): no current thread, [RunLoop(true)]. *)
Lemma RunLoop_idles_without_thread_witness :
  let x := CoreManager.RunLoop 0 true Demo.idle_halted in
  occurrences is_timing_idle (trace_of x) = 1 /\
  occurrences is_arch_run (trace_of x) = 0 /\
  occurrences is_arch_step (trace_of x) = 0.
Proof.
  destruct (RunLoop_idles_without_thread 0 true Demo.idle_halted)
    as (_ & _ & Hidle & Hrun & Hstep).
  - reflexivity.
  - repeat split; assumption.
Defined.

(** C10 at work: no current thread while the debugger has halted the
    CPU. *)
Lemma RunLoop_idle_path_ignores_halt_flag_witness :
  GDBStub.GetCpuHaltFlag Demo.idle_halted = true /\
  let x := CoreManager.RunLoop 3 false Demo.idle_halted in
  (exists before between after,
     trace_of x =
       before ++ EvTimingIdle :: between ++ EvTimingAdvance :: after) /\
  occurrences is_halt_query (trace_of x) = 0.
Proof.
  split; [reflexivity|].
  destruct (RunLoop_idle_path_ignores_halt_flag 3 false Demo.idle_halted)
    as (Horder & Hquery & _).
  - reflexivity.
  - split; assumption.
Defined.

(** ** CpuManager: the current core manager, shutdown *)

Section CpuManagerObjects.
Context {World : Type} `{Collaborators World}.
Import CpuManager.

(** The newer manager has no multi-core mode and no thread map: the
    current core manager is always the one in slot [active_core]. *)
Lemma GetCurrentCoreManager_active_core (m : State World) core :
  core_managers m !! active_core m = Some (Some core) ->
  GetCurrentCoreManager m = Ok core.
Proof. unfold GetCurrentCoreManager. intros ->. reflexivity. Qed.

(** The newer manager's [Shutdown] only destroys its four CoreManagers,
    in index order. *)
Lemma CpuManager_Shutdown_resets_core_managers (m : State World) :
  length (core_managers m) = NUM_CPU_CORES ->
  let x := Shutdown m in
  result x = Ok tt /\
  trace_of x = map EvCoreManagerReset (seq 0 NUM_CPU_CORES) /\
  core_managers (state_of x) = [None; None; None; None].
Proof.
  intros Hlen. destruct m as [s cms ac]. cbn in Hlen.
  destruct cms as [|? [|? [|? [|? [|]]]]]; try discriminate Hlen.
  repeat split; reflexivity.
Qed.

End CpuManagerObjects.

(** ** CpuCoreManager: the current core, shutdown *)

Section CpuCoreManagerFacts.
Context {World : Type}.
Import CpuCoreManager.

(** C6: in multi-core mode [GetCurrentCore] returns the [Cpu] that
    [thread_to_cpu] holds for the calling host thread, and a missing (or
    null) entry is a failed assertion; in single-core mode it returns
    [cores[active_core]].  It changes nothing and calls nothing. *)
Theorem GetCurrentCore_by_thread_or_active_core (m : State World)
    (this_thread : HostThreadId) :
  let x := GetCurrentCore this_thread m in
  (use_multi_core (settings (sys m)) = true ->
     (forall cpu, thread_to_cpu m !! this_thread = Some (Some cpu) ->
                  result x = Ok cpu) /\
     (thread_to_cpu m !! this_thread = None ->
      result x = Abort AssertFailed) /\
     (thread_to_cpu m !! this_thread = Some None ->
      result x = Abort AssertFailed)) /\
  (use_multi_core (settings (sys m)) = false ->
     forall cpu, cores m !! active_core m = Some (Some cpu) ->
                 result x = Ok cpu) /\
  state_of x = m /\ trace_of x = [].
Proof.
  cbv zeta. unfold GetCurrentCore. cbv [bind gets].
  destruct (use_multi_core (settings (sys m))).
  - destruct (thread_to_cpu m !! this_thread) as [[cpu|]|] eqn:E;
      cbn; repeat split; intros; congruence.
  - destruct (cores m !! active_core m) as [[cpu|]|] eqn:E;
      cbn; repeat split; intros; congruence.
Qed.

(** C7: on a running manager [Shutdown] returns after, in this order:
    [NotifyEnd] on the barrier; in multi-core mode, joining (and
    releasing) the three helper threads; clearing [thread_to_cpu];
    shutting down and destroying the four [Cpu]s; destroying the
    exclusive monitor; destroying the barrier. *)
Theorem Shutdown_order (m : State World) :
  running m ->
  let x := Shutdown m in
  result x = Ok tt /\
  trace_of x =
    [EvBarrierNotifyEnd]
      ++ (if use_multi_core (settings (sys m)) then join_trace else [])
      ++ [EvThreadToCpuClear]
      ++ destroy_cores_trace
      ++ [EvExclusiveMonitorReset; EvBarrierReset] /\
  core_threads (state_of x) =
    (if use_multi_core (settings (sys m)) then [None; None; None]
     else core_threads m) /\
  thread_to_cpu (state_of x) = ∅ /\
  cores (state_of x) = [None; None; None; None] /\
  exclusive_monitor (state_of x) = None /\
  barrier (state_of x) = None.
Proof.
  intros [[b Hb] Hcores Hthreads Hlen]. cbv zeta.
  destruct m as [s cs ths ttc bar mon ac]. cbn in *. subst cs bar.
  unfold Shutdown.
  destruct (use_multi_core (settings s)) eqn:Hm.
  - destruct (Hthreads eq_refl) as (t1 & t2 & t3 & ->).
    cbv [bind gets call ret]. cbn. rewrite Hm. cbn. repeat split; reflexivity.
  - destruct ths as [|? [|? [|? [|]]]]; try discriminate Hlen.
    cbv [bind gets call ret]. cbn. rewrite Hm. cbn. repeat split; reflexivity.
Qed.

End CpuCoreManagerFacts.

(** C6 at work: after [StartThreads] in multi-core mode, helper thread
    102 finds core 2; thread 105, which was never registered, fails the
    assertion. *)
Lemma GetCurrentCore_by_thread_or_active_core_witness :
  result (CpuCoreManager.GetCurrentCore 102 Demo.started_multi_core) =
    Ok {| CpuCoreManager.core_index := 2 |} /\
  result (CpuCoreManager.GetCurrentCore 105 Demo.started_multi_core) =
    Abort AssertFailed.
Proof.
  split.
  - destruct (GetCurrentCore_by_thread_or_active_core
                Demo.started_multi_core 102) as [Hmulti _].
    destruct Hmulti as [Hfound _]; [reflexivity|].
    apply Hfound. vm_compute. reflexivity.
  - destruct (GetCurrentCore_by_thread_or_active_core
                Demo.started_multi_core 105) as [Hmulti _].
    destruct Hmulti as (_ & Hmissing & _); [reflexivity|].
    apply Hmissing. vm_compute. reflexivity.
Defined.

(** C7 at work: shutting the multi-core manager down. *)
Lemma Shutdown_order_witness :
  trace_of (CpuCoreManager.Shutdown Demo.started_multi_core) =
    [EvBarrierNotifyEnd;
     EvThreadJoin 0; EvThreadReset 0; EvThreadJoin 1; EvThreadReset 1;
     EvThreadJoin 2; EvThreadReset 2;
     EvThreadToCpuClear;
     EvCpuShutdown 0; EvCpuReset 0; EvCpuShutdown 1; EvCpuReset 1;
     EvCpuShutdown 2; EvCpuReset 2; EvCpuShutdown 3; EvCpuReset 3;
     EvExclusiveMonitorReset; EvBarrierReset].
Proof.
  destruct (Shutdown_order (m := Demo.started_multi_core)) as (_ & Htrace & _).
  - constructor.
    + eexists. reflexivity.
    + reflexivity.
    + intros _. eexists _, _, _. reflexivity.
    + reflexivity.
  - exact Htrace.
Defined.

(** ** The breakpoint table *)

Lemma BreakpointType_eqb_eq a b : BreakpointType.eqb a b = true <-> a = b.
Proof. destruct a, b; cbn; split; congruence. Qed.

(** C9: on an address-ordered table, if some breakpoint of the type lies
    at or after [addr], [GetNextBreakpointFromAddress] returns a stored
    one of that type, at or after [addr], with the least address among
    them; if none does, it returns the sentinel (address 0, type None). *)
Theorem GetNextBreakpointFromAddress_nearest (table : BreakpointTable)
    addr ty :
  table_sorted table ->
  let r := GetNextBreakpointFromAddress table addr ty in
  ((exists b, In b table /\ candidate addr ty b) ->
     In r table /\ candidate addr ty r /\
     forall b, In b table -> candidate addr ty b ->
               (address r <= address b)%N) /\
  ((forall b, In b table -> ~ candidate addr ty b) ->
     r = {| address := 0%N; type := BreakpointType.None |}).
Proof.
  intros Hs. cbv zeta. unfold GetNextBreakpointFromAddress.
  induction Hs as [|a l Hs IH Hall].
  - cbn. split; [intros (b & [] & _) | reflexivity].
  - cbn [List.find].
    destruct (BreakpointType.eqb (type a) ty && (addr <=? address a)%N) eqn:Ea.
    + apply andb_true_iff in Ea as [Et Ea].
      apply BreakpointType_eqb_eq in Et. apply N.leb_le in Ea.
      split.
      * intros _. split; [left; reflexivity|]. split; [split; assumption|].
        intros b [<-|Hb] _; [lia|].
        rewrite Forall_forall in Hall. apply Hall.
        apply list_elem_of_In. exact Hb.
      * intros Hnone. exfalso. apply (Hnone a); [left; reflexivity|].
        split; assumption.
    + assert (Hna : ~ candidate addr ty a).
      { intros [Ht Hle]. apply andb_false_iff in Ea as [Ea|Ea].
        - apply BreakpointType_eqb_eq in Ht. congruence.
        - apply N.leb_gt in Ea. lia. }
      destruct IH as [IH1 IH2]. split.
      * intros (b & [<-|Hb] & Hc); [contradiction|].
        destruct (IH1 (ex_intro _ b (conj Hb Hc))) as (Hin & Hcand & Hmin).
        split; [right; exact Hin|]. split; [exact Hcand|].
        intros b' [<-|Hb'] Hc'; [contradiction|]. apply Hmin; assumption.
      * intros Hnone. apply IH2. intros b Hb. apply Hnone. right. exact Hb.
Qed.

Lemma breakpoints_sorted : table_sorted Demo.breakpoints.
Proof.
  unfold table_sorted, Demo.breakpoints.
  repeat (constructor; [|repeat constructor; cbn; lia]). constructor.
Qed.

(** C9 at work: from 0x1001 the next Execute breakpoint is the one at
    0x3000, the Write and Read breakpoints in between notwithstanding;
    from 0x3001 there is none. *)
Lemma GetNextBreakpointFromAddress_nearest_witness :
  (let r := GetNextBreakpointFromAddress Demo.breakpoints 0x1001
              BreakpointType.Execute in
   r = {| address := 0x3000; type := BreakpointType.Execute |} /\
   In r Demo.breakpoints /\
   forall b, In b Demo.breakpoints ->
             candidate 0x1001 BreakpointType.Execute b ->
             (address r <= address b)%N) /\
  GetNextBreakpointFromAddress Demo.breakpoints 0x3001 BreakpointType.Execute =
    {| address := 0%N; type := BreakpointType.None |}.
Proof.
  split.
  - destruct (GetNextBreakpointFromAddress_nearest (table := Demo.breakpoints)
                0x1001 BreakpointType.Execute breakpoints_sorted)
      as [Hsome _].
    destruct Hsome as (Hin & _ & Hmin).
    + exists {| address := 0x3000; type := BreakpointType.Execute |}.
      split; [cbn; tauto|]. split; [reflexivity | cbn; lia].
    + cbv zeta. split; [reflexivity|]. split; [exact Hin | exact Hmin].
  - destruct (GetNextBreakpointFromAddress_nearest (table := Demo.breakpoints)
                0x3001 BreakpointType.Execute breakpoints_sorted)
      as [_ Hnone].
    apply Hnone. intros b Hb [Ht Hle].
    cbn in Hb. decompose [or] Hb; subst; cbn in *; try discriminate; try lia.
Defined.

(** * Further properties of the code *)

(** ** The HLE lock *)

Lemma lock_run_app held t1 t2 :
  lock_run held (t1 ++ t2) =
    match lock_run held t1 with
    | Some held' => lock_run held' t2
    | None => None
    end.
Proof.
  revert held. induction t1 as [|e t1 IH]; intros held; [reflexivity|].
  cbn [app lock_run]. destruct (lock_step held e); [apply IH | reflexivity].
Qed.

Lemma well_locked_app t1 t2 :
  well_locked t1 -> well_locked t2 -> well_locked (t1 ++ t2).
Proof.
  unfold well_locked. intros H1 H2. rewrite lock_run_app, H1. exact H2.
Qed.

(** ** More on CoreManager::RunLoop *)

Section MoreCoreManagerFacts.
Context {World : Type} `{Collaborators World}.
Import CoreManager.

(** What [RunLoop] does, by what it reads after its first [Reschedule]:
    the events between the two [Reschedule]s. *)
Lemma RunLoop_cases core tight (s : Sys World) :
  let s1 := rescheduled core s in
  result (RunLoop core tight s) = Ok tt /\
  exists middle,
    trace_of (RunLoop core tight s) =
      Reschedule_trace core ++ middle ++ Reschedule_trace core /\
    match GetCurrentThread s1 with
    | None =>
        middle = [EvGetCurrentThread None; EvTimingIdle; EvArchStop core;
                  EvTimingAdvance]
    | Some thread =>
        if GDBStub.GetCpuHaltFlag s1 then
          middle = [EvGetCurrentThread (Some thread); EvGetCpuHaltFlag true]
        else if GDBStub.GetThreadStepFlag thread s1 then
          middle = [EvGetCurrentThread (Some thread); EvGetCpuHaltFlag false;
                    EvGetThreadStepFlag thread true; EvBreak false;
                    EvArchStep core; EvTimingAdvance]
        else
          middle = [EvGetCurrentThread (Some thread); EvGetCpuHaltFlag false;
                    EvGetThreadStepFlag thread false;
                    if tight then EvArchRun core else EvArchStep core;
                    EvTimingAdvance]
    end.
Proof.
  cbv zeta.
  destruct (GetCurrentThread (rescheduled core s)) as [thread|] eqn:Ht.
  - destruct (GDBStub.GetCpuHaltFlag (rescheduled core s)) eqn:Hh.
    + rewrite (RunLoop_halted core tight s Ht Hh).
      split; [reflexivity|]. eexists. split; reflexivity.
    + pose proof (RunLoop_executing core tight s Ht Hh) as E.
      cbv zeta in E. rewrite E. split; [reflexivity|].
      destruct (GDBStub.GetThreadStepFlag thread (rescheduled core s));
        eexists; (split; [|reflexivity]); reflexivity.
  - rewrite (RunLoop_no_thread core tight s Ht).
    split; [reflexivity|]. eexists. split; reflexivity.
Qed.

Ltac run_loop_cases core tight s middle Htrace :=
  let Hmid := fresh "Hmid" in
  destruct (RunLoop_cases core tight s) as (_ & middle & Htrace & Hmid);
  cbv zeta in Hmid;
  destruct (GetCurrentThread (rescheduled core s)) as [?thread|];
  [ destruct (GDBStub.GetCpuHaltFlag (rescheduled core s));
    [ | destruct (GDBStub.GetThreadStepFlag _ (rescheduled core s)) ] | ];
  subst middle; rewrite Htrace; clear Htrace.

Lemma core_RunLoop_well_locked core tight (s : Sys World) :
  well_locked (trace_of (RunLoop core tight s)).
Proof.
  run_loop_cases core tight s middle Htrace; try reflexivity.
  destruct tight; reflexivity.
Qed.

(** X1: with a current thread, the halt flag clear and the thread's step
    flag clear, [RunLoop] follows [tight_loop]: it calls
    [physical_core.Run] once and never [Step] when [tight_loop] is true,
    [Step] once and never [Run] when it is false; it never calls
    [GDBStub::Break]; and it leaves the system as the scheduler, the core,
    [Advance] and the scheduler again make it. *)
Theorem RunLoop_follows_tight_loop_without_step_flag core tight (s : Sys World)
    thread :
  GetCurrentThread (rescheduled core s) = Some thread ->
  GDBStub.GetCpuHaltFlag (rescheduled core s) = false ->
  GDBStub.GetThreadStepFlag thread (rescheduled core s) = false ->
  let x := RunLoop core tight s in
  occurrences is_arch_run (trace_of x) = (if tight then 1 else 0) /\
  occurrences is_arch_step (trace_of x) = (if tight then 0 else 1) /\
  occurrences is_break (trace_of x) = 0 /\
  state_of x =
    rescheduled core
      (Advance ((if tight then Run core else Step core) (rescheduled core s))).
Proof.
  intros Ht Hh Hf. cbv zeta.
  pose proof (RunLoop_executing core tight s Ht Hh) as E.
  cbv zeta in E. rewrite Hf in E. rewrite E.
  destruct tight; repeat split; reflexivity.
Qed.

(** X2: [SingleStep] returns and never calls [physical_core.Run]; it
    steps at most one instruction, whatever the state of the debugger. *)
Theorem SingleStep_never_runs core (s : Sys World) :
  let x := SingleStep core s in
  result x = Ok tt /\
  occurrences is_arch_run (trace_of x) = 0 /\
  occurrences is_arch_step (trace_of x) <= 1.
Proof.
  cbv zeta. unfold SingleStep.
  split; [apply RunLoop_cases|].
  run_loop_cases core false s middle Htrace; cbn; lia.
Qed.

(** X3: [RunLoop] calls [core_timing.Advance] exactly once, except on
    the halted path (a current thread and the halt flag set), where it
    does not call it at all. *)
Theorem RunLoop_advances_once_unless_halted core tight (s : Sys World) :
  let s1 := rescheduled core s in
  occurrences is_timing_advance (trace_of (RunLoop core tight s)) =
    match GetCurrentThread s1 with
    | Some _ => if GDBStub.GetCpuHaltFlag s1 then 0 else 1
    | None => 1
    end.
Proof.
  cbv zeta.
  run_loop_cases core tight s middle Htrace; try reflexivity.
  destruct tight; reflexivity.
Qed.

(** X4: [RunLoop] keeps the discipline of the HLE lock: the lock is
    taken exactly twice (once per [Reschedule]), never while it is held,
    and is free at the end; [SelectThread] and [TryDoContextSwitch] are
    only called with the lock held, and every other collaborator (timing,
    the physical core, the GDB stub) only with the lock free. *)
Theorem RunLoop_well_locked core tight (s : Sys World) :
  well_locked (trace_of (RunLoop core tight s)) /\
  occurrences is_lock (trace_of (RunLoop core tight s)) = 2.
Proof.
  split; [apply core_RunLoop_well_locked|].
  run_loop_cases core tight s middle Htrace; try reflexivity.
  destruct tight; reflexivity.
Qed.

(** X5: [RunLoop] of a core addresses the scheduler and the physical
    core of this core only, and selects a thread exactly twice. *)
Theorem RunLoop_touches_only_its_core core tight (s : Sys World) :
  only_core core (trace_of (RunLoop core tight s)) /\
  occurrences is_select_thread (trace_of (RunLoop core tight s)) = 2.
Proof.
  unfold only_core.
  run_loop_cases core tight s middle Htrace; try destruct tight;
    (split; [|reflexivity]);
    unfold Reschedule_trace; cbn [app];
    repeat first [ apply List.Forall_nil
                 | apply List.Forall_cons; [cbn; auto|] ].
Qed.

(** X23: [RunLoop] calls [core_timing.Idle] and [PrepareReschedule]
    (that is, [physical_core.Stop]) once each when no thread is current,
    and neither of them when one is. *)
Theorem RunLoop_stops_the_core_only_when_idle core tight (s : Sys World) :
  let times :=
    match GetCurrentThread (rescheduled core s) with
    | None => 1
    | Some _ => 0
    end in
  occurrences is_timing_idle (trace_of (RunLoop core tight s)) = times /\
  occurrences is_arch_stop (trace_of (RunLoop core tight s)) = times.
Proof.
  cbv zeta.
  run_loop_cases core tight s middle Htrace; try (split; reflexivity).
  destruct tight; split; reflexivity.
Qed.

End MoreCoreManagerFacts.

(** X1 at work: thread 7 is current on core 1, nothing is halted or
    stepped: the tight loop executes (ten instructions on the concrete
    machine) and one time slice is used up. *)
Lemma RunLoop_follows_tight_loop_without_step_flag_witness :
  let x := CoreManager.RunLoop 1 true Demo.free_running in
  occurrences is_arch_run (trace_of x) = 1 /\
  occurrences is_arch_step (trace_of x) = 0 /\
  Demo.executed (ext (state_of x)) = 10 /\
  Demo.slices (ext (state_of x)) = 2.
Proof.
  destruct (@RunLoop_follows_tight_loop_without_step_flag _ _ 1 true
              Demo.free_running 7)
    as (Hrun & Hstep & _ & Hstate).
  - reflexivity.
  - reflexivity.
  - vm_compute. reflexivity.
  - cbv zeta. rewrite Hstate. repeat split; assumption || reflexivity.
Defined.

(** ** More on CpuManager::RunLoop *)

Section ManagerInvariants.
Context {World : Type} `{Collaborators World}.
Import CpuManager.

(** A property [P] of traces that holds of every piece of the manager's
    loop, and a property [Inv] of the system that every piece keeps, hold
    of the whole loop.  The core's [RunLoop] is only entered from states
    in which [CanCurrentContextRun] answers true. *)
Variable Inv : Sys World -> Prop.
Variable P : Trace -> Prop.
Variable tight : bool.
Hypothesis P_nil : P [].
Hypothesis P_app : forall t1 t2, P t1 -> P t2 -> P (t1 ++ t2).
Hypothesis P_switch : forall c, P [EvTimingSwitchContext c].
Hypothesis P_can_run : forall b, P [EvTimingCanCurrentContextRun b].
Hypothesis P_connected : forall b, P [EvIsConnected b].
Hypothesis Inv_switch : forall c s, Inv s -> Inv (SwitchContext c s).
Hypothesis Inv_core :
  forall c s, c < NUM_CPU_CORES -> Inv s -> CanCurrentContextRun s = true ->
    Inv (state_of (CoreManager.RunLoop c tight s)) /\
    P (EvCoreRunLoop c tight :: trace_of (CoreManager.RunLoop c tight s)).

Lemma for_active_core_invariant todo : forall keep (m : State World),
  initialized m -> active_core m + todo = NUM_CPU_CORES -> Inv (sys m) ->
  let x := for_active_core todo tight keep m in
  (exists keep', result x = Ok keep') /\
  initialized (state_of x) /\
  active_core (state_of x) = NUM_CPU_CORES /\
  Inv (sys (state_of x)) /\
  P (trace_of x).
Proof using All.
  induction todo as [|todo IH]; intros keep m Hi Hc HI; cbv zeta.
  - cbn. rewrite Nat.add_0_r in Hc. repeat split; eauto.
  - assert (Hlt : active_core m < NUM_CPU_CORES) by lia.
    rewrite (for_active_core_step todo tight keep Hi Hlt).
    set (c := active_core m) in *.
    set (s1 := SwitchContext c (sys m)).
    assert (HI1 : Inv s1) by (apply Inv_switch, HI).
    set (s2 := if CanCurrentContextRun s1
               then state_of (CoreManager.RunLoop c tight s1) else s1).
    assert (HI2 : Inv s2 /\
                  P (if CanCurrentContextRun s1
                     then EvCoreRunLoop c tight
                            :: trace_of (CoreManager.RunLoop c tight s1)
                     else [])).
    { subst s2. destruct (CanCurrentContextRun s1) eqn:Hcan.
      - apply Inv_core; assumption.
      - split; assumption. }
    destruct HI2 as [HI2 HP2].
    set (m2 := set_active_core (S c) (set_sys s2 m)).
    destruct (IH (keep || CanCurrentContextRun s2) m2)
      as (Hk & Hi' & Hac & HI' & HP').
    { exact Hi. }
    { subst m2 c. cbn [active_core set_active_core]. lia. }
    { exact HI2. }
    cbn [result state_of trace_of fst snd].
    repeat split; try assumption.
    change (?a :: ?b :: ?l ++ ?d :: ?t) with ([a] ++ [b] ++ l ++ [d] ++ t).
    repeat apply P_app; auto.
Qed.

Lemma do_while_invariant max_loops fuel : forall n (m : State World),
  initialized m -> Inv (sys m) ->
  let x := do_while fuel tight max_loops n m in
  Inv (sys (state_of x)) /\
  P (trace_of x) /\
  ((exists kn, result x = Ok kn) ->
   initialized (state_of x) /\ active_core (state_of x) = NUM_CPU_CORES).
Proof using All.
  induction fuel as [|fuel IH]; intros n m Hi HI; cbv zeta.
  - cbn. split; [assumption|]. split; [apply P_nil|].
    intros [kn Hk]. discriminate Hk.
  - destruct (do_while_step fuel tight max_loops n Hi)
      as (keep & m1 & t & E & Hi1 & _ & Estep).
    cbv zeta in Estep. rewrite Estep. clear Estep.
    destruct (for_active_core_invariant NUM_CPU_CORES false
                (m := set_active_core 0 m) Hi eq_refl HI)
      as (_ & _ & Hac & HI1 & HP1).
    rewrite E in Hac, HI1, HP1. cbn [state_of trace_of fst snd] in Hac, HI1, HP1.
    destruct (again_bounded _ _ _).
    + destruct (IH (counted (GDBStub.IsConnected (sys m1)) n) m1 Hi1 HI1)
        as (HI' & HP' & Hret).
      cbn [result state_of trace_of fst snd].
      repeat split; try assumption; try (apply Hret; assumption).
      apply P_app; [exact HP1|].
      change (?a :: ?l) with ([a] ++ l). apply P_app; auto.
    + cbn [result state_of trace_of fst snd].
      repeat split; try assumption. apply P_app; auto.
Qed.

End ManagerInvariants.

Section MoreCpuManagerFacts.
Context {World : Type} `{Collaborators World}.
Import CpuManager.

Lemma well_locked_prologue (s : Sys World) : well_locked (prologue_trace s).
Proof. unfold prologue_trace. destruct (GDBStub.IsServerEnabled s); reflexivity. Qed.

Lemma occurrences_core_RunLoop kind core tight (s : Sys World) :
  (forall e, kind e = true -> manager_event e = true) ->
  occurrences kind (trace_of (CoreManager.RunLoop core tight s)) = 0.
Proof.
  intros Hk. rewrite <- (occurrences_manager_view kind _ Hk).
  destruct (core_RunLoop_returns core tight s) as [_ ->]. reflexivity.
Qed.

(** X6: the whole of [CpuManager::RunLoop], however many rotations it
    makes, keeps the discipline of the HLE lock: the scheduler is only
    called with the lock held, timing, the cores and the GDB stub only
    with the lock free, and the lock is free at the end. *)
Theorem CpuManager_RunLoop_well_locked fuel tight (m : State World) :
  initialized m ->
  well_locked (trace_of (RunLoop fuel tight m)).
Proof.
  intros Hi. rewrite RunLoop_exec. cbn [trace_of snd].
  apply well_locked_app; [apply well_locked_prologue|].
  apply do_while_invariant with (Inv := fun _ => True) (P := well_locked);
    try reflexivity; auto using well_locked_app.
  intros c s _ _ _. split; [exact I|].
  change (?e :: ?t) with ([e] ++ t).
  apply well_locked_app; [reflexivity | apply core_RunLoop_well_locked].
Qed.

(** X7: [CpuManager::RunLoop] calls [GDBStub::HandlePacket] once when the
    server is enabled on entry and never otherwise, whatever the number
    of rotations (the older manager calls it in every rotation), and
    [ResetRun] exactly once. *)
Theorem CpuManager_RunLoop_handles_one_packet fuel tight (m : State World) :
  initialized m ->
  let x := RunLoop fuel tight m in
  occurrences is_handle_packet (trace_of x) =
    (if GDBStub.IsServerEnabled (sys m) then 1 else 0) /\
  occurrences is_reset_run (trace_of x) = 1.
Proof.
  intros Hi. cbv zeta. rewrite RunLoop_exec. cbn [trace_of snd].
  rewrite !occurrences_app.
  assert (Hloop :
    occurrences is_handle_packet
      (trace_of (do_while fuel tight (loop_bound (sys m)) 0
                   (set_sys (entered (sys m)) m))) = 0 /\
    occurrences is_reset_run
      (trace_of (do_while fuel tight (loop_bound (sys m)) 0
                   (set_sys (entered (sys m)) m))) = 0).
  { apply do_while_invariant
      with (Inv := fun _ => True)
           (P := fun t => occurrences is_handle_packet t = 0 /\
                          occurrences is_reset_run t = 0);
      try (split; reflexivity); auto.
    - intros t1 t2 [Ha1 Hb1] [Ha2 Hb2].
      rewrite !occurrences_app, Ha1, Ha2, Hb1, Hb2. split; reflexivity.
    - intros c s _ _ _. split; [exact I|].
      rewrite !occurrences_cons.
      rewrite !occurrences_core_RunLoop; [split; reflexivity | |];
        intros [] He; try discriminate He; reflexivity. }
  destruct Hloop as [-> ->]. unfold prologue_trace.
  destruct (GDBStub.IsServerEnabled (sys m)); split; reflexivity.
Qed.

(** X8: when [CpuManager::RunLoop] returns, [active_core] is
    [NUM_CPU_CORES], one past the last core, and the core managers are
    the ones it started with: a [GetCurrentCoreManager] that follows
    indexes the array out of range. *)
Theorem CpuManager_RunLoop_leaves_active_core_past_the_end fuel tight
    (m : State World) :
  initialized m ->
  let x := RunLoop fuel tight m in
  result x = Ok tt ->
  active_core (state_of x) = NUM_CPU_CORES /\
  core_managers (state_of x) = core_managers m /\
  GetCurrentCoreManager (state_of x) = Abort OutOfRange.
Proof.
  intros Hi x Hr. subst x. apply RunLoop_result_Ok in Hr.
  rewrite RunLoop_exec. cbn [state_of fst snd].
  destruct do_while_invariant
    with (Inv := fun _ : Sys World => True) (P := fun _ : Trace => True)
         (tight := tight) (max_loops := loop_bound (sys m))
         (fuel := fuel) (n := 0%Z) (m := set_sys (entered (sys m)) m)
    as (_ & _ & Hret); auto.
  destruct (Hret Hr) as [Hi' Hac].
  assert (Hcm : core_managers
                  (state_of (do_while fuel tight (loop_bound (sys m)) 0
                               (set_sys (entered (sys m)) m)))
                = core_managers m).
  { unfold initialized in Hi, Hi'. rewrite Hi, Hi'. reflexivity. }
  split; [exact Hac|]. split; [exact Hcm|].
  unfold GetCurrentCoreManager. rewrite Hac.
  unfold initialized in Hi'. rewrite Hi'. reflexivity.
Qed.

(** The slice of a halted system: nothing is executed and the system
    stays halted. *)
Lemma RunLoop_while_halted core tight (s : Sys World) :
  halt_respected ->
  halt_flag (gdb s) = true ->
  halt_flag (gdb (state_of (CoreManager.RunLoop core tight s))) = true /\
  occurrences is_arch_run (trace_of (CoreManager.RunLoop core tight s)) = 0 /\
  occurrences is_arch_step (trace_of (CoreManager.RunLoop core tight s)) = 0.
Proof.
  intros (Hsel & Hsw & Hidle & Hadv & Hstop & _) Hh.
  assert (Hh1 : halt_flag (gdb (rescheduled core s)) = true)
    by (apply Hsw, Hsel, Hh).
  destruct (GetCurrentThread (rescheduled core s)) as [thread|] eqn:Ht.
  - rewrite (RunLoop_halted core tight s Ht Hh1).
    split; [|split; reflexivity].
    cbn [state_of fst snd]. apply Hsw, Hsel, Hh1.
  - rewrite (RunLoop_no_thread core tight s Ht).
    split; [|split; reflexivity].
    cbn [state_of fst snd]. apply Hsw, Hsel, Hadv, Hstop, Hidle, Hh1.
Qed.

(** X9: if the halt flag is set when the loop of [CpuManager::RunLoop]
    is entered (after the packet pump), and the scheduler, timing and
    [Stop] do not clear it, then no core executes an instruction in any
    rotation, whether or not threads are current, and the system is still
    halted when [RunLoop] stops. *)
Theorem CpuManager_RunLoop_executes_nothing_while_halted fuel tight
    (m : State World) :
  halt_respected ->
  initialized m ->
  halt_flag (gdb (entered (sys m))) = true ->
  let x := RunLoop fuel tight m in
  occurrences is_arch_run (trace_of x) = 0 /\
  occurrences is_arch_step (trace_of x) = 0 /\
  halt_flag (gdb (sys (state_of x))) = true.
Proof.
  intros Hres Hi Hh. cbv zeta. rewrite RunLoop_exec.
  cbn [trace_of state_of fst snd]. rewrite !occurrences_app.
  rewrite !occurrences_prologue by reflexivity. cbn [Nat.add].
  destruct do_while_invariant
    with (Inv := fun s : Sys World => halt_flag (gdb s) = true)
         (P := fun t => occurrences is_arch_run t = 0 /\
                        occurrences is_arch_step t = 0)
         (tight := tight) (max_loops := loop_bound (sys m))
         (fuel := fuel) (n := 0%Z) (m := set_sys (entered (sys m)) m)
    as (Hhalt & [Hrun Hstep] & _); auto.
  - intros t1 t2 [Ha1 Hb1] [Ha2 Hb2].
    rewrite !occurrences_app, Ha1, Ha2, Hb1, Hb2. split; reflexivity.
  - intros c s Hs. destruct Hres as (_ & _ & _ & _ & _ & Hswitch).
    apply Hswitch, Hs.
  - intros c s _ Hs _.
    destruct (RunLoop_while_halted c tight s Hres Hs) as (Hh' & Hr' & Hs').
    split; [exact Hh'|]. rewrite !occurrences_cons, Hr', Hs'.
    split; reflexivity.
Qed.

(** The [for] loop when timing lets no context run. *)
Lemma for_active_core_blocked (Blocked : Sys World -> Prop) tight :
  blocks Blocked ->
  forall todo keep (m : State World),
    initialized m -> active_core m + todo = NUM_CPU_CORES ->
    Blocked (sys m) ->
    let x := for_active_core todo tight keep m in
    result x = Ok keep /\
    initialized (state_of x) /\
    Blocked (sys (state_of x)) /\
    sys (state_of x) =
      fold_left (fun s c => SwitchContext c s) (seq (active_core m) todo)
                (sys m) /\
    trace_of x =
      flat_map (fun c => [EvTimingSwitchContext c;
                          EvTimingCanCurrentContextRun false;
                          EvTimingCanCurrentContextRun false])
               (seq (active_core m) todo).
Proof.
  intros [Hcan Hswitch].
  induction todo as [|todo IH]; intros keep m Hi Hc Hb; cbv zeta.
  - repeat split; assumption.
  - assert (Hlt : active_core m < NUM_CPU_CORES) by lia.
    rewrite (for_active_core_step todo tight keep Hi Hlt).
    assert (Hb1 : Blocked (SwitchContext (active_core m) (sys m)))
      by (apply Hswitch, Hb).
    rewrite (Hcan _ Hb1). rewrite (Hcan _ Hb1). rewrite orb_false_r.
    destruct (IH keep (set_active_core (S (active_core m))
                         (set_sys (SwitchContext (active_core m) (sys m)) m)))
      as (Hr & Hi' & Hb' & Hs & Ht); auto.
    { cbn [active_core set_active_core]. lia. }
    cbn [result state_of trace_of fst snd].
    rewrite Hr, Ht. repeat split; assumption.
Qed.

(** X10: when timing lets no context run, [CpuManager::RunLoop] makes
    exactly one rotation and returns: after its prologue it switches to
    the cores 0, 1, 2, 3 in turn, asks [CanCurrentContextRun] twice for
    each, asks the GDB stub once whether it is connected, and calls
    nothing else; no core's [RunLoop] is entered. *)
Theorem CpuManager_RunLoop_rotates_once_when_nothing_can_run
    (Blocked : Sys World -> Prop) fuel tight (m : State World) :
  blocks Blocked ->
  initialized m ->
  Blocked (entered (sys m)) ->
  let x := RunLoop (S fuel) tight m in
  result x = Ok tt /\
  trace_of x =
    prologue_trace (sys m) ++ blocked_rotation
      ++ [EvIsConnected (GDBStub.IsConnected (sys (state_of x)))] /\
  sys (state_of x) =
    fold_left (fun s c => SwitchContext c s) (seq 0 NUM_CPU_CORES)
              (entered (sys m)).
Proof.
  intros Hblocks Hi Hb. cbv zeta.
  rewrite RunLoop_exec.
  destruct (for_active_core_blocked tight Hblocks
              NUM_CPU_CORES false
              (m := set_active_core 0 (set_sys (entered (sys m)) m)))
    as (Hr & Hi' & Hb' & Hs & Ht); auto.
  destruct (do_while_step fuel tight (loop_bound (sys m)) 0
              (m := set_sys (entered (sys m)) m) Hi)
    as (keep & m1 & t & E & _ & _ & Estep).
  rewrite E in Hr, Ht, Hs. cbn [result state_of trace_of fst snd] in Hr, Ht, Hs.
  injection Hr as ->. cbv zeta in Estep. rewrite Estep. clear Estep.
  unfold again_bounded. cbn [andb result state_of trace_of fst snd].
  subst t. cbn [active_core set_active_core sys set_sys] in *.
  fold blocked_rotation.
  repeat split; try reflexivity. exact Hs.
Qed.

End MoreCpuManagerFacts.

(** The collaborators of the concrete machine leave the debugger's state
    alone. *)
Lemma Demo_halt_respected : @halt_respected Demo.World _.
Proof. repeat split; intros; intros s Hs; exact Hs. Qed.

(** On the concrete machine no context can run once the time slices are
    used up. *)
Lemma Demo_blocks_without_slices :
  @blocks Demo.World _ (fun s => Demo.slices (ext s) = 0).
Proof.
  split.
  - intros s Hs. cbn. rewrite Hs. reflexivity.
  - intros c s Hs. exact Hs.
Qed.

(** X6 at work: three rotations on the concrete machine. *)
Lemma CpuManager_RunLoop_well_locked_witness :
  well_locked (trace_of (CpuManager.RunLoop 10 true Demo.six_slices)) /\
  occurrences is_lock (trace_of (CpuManager.RunLoop 10 true Demo.six_slices))
    = 12.
Proof.
  split.
  - apply (@CpuManager_RunLoop_well_locked _ _ 10 true Demo.six_slices).
    reflexivity.
  - vm_compute. reflexivity.
Defined.

(** X7 at work: the server is enabled and the loop makes three
    rotations; the packet pump is called once. *)
Lemma CpuManager_RunLoop_handles_one_packet_witness :
  let x := CpuManager.RunLoop 10 true Demo.connected_three_loops in
  rotation_count (trace_of x) = 3 /\
  occurrences is_handle_packet (trace_of x) = 1 /\
  occurrences is_reset_run (trace_of x) = 1.
Proof.
  split; [vm_compute; reflexivity|].
  apply (@CpuManager_RunLoop_handles_one_packet _ _ 10 true
           Demo.connected_three_loops).
  reflexivity.
Defined.

(** X8 at work. *)
Lemma CpuManager_RunLoop_leaves_active_core_past_the_end_witness :
  let x := CpuManager.RunLoop 10 true Demo.six_slices in
  CpuManager.active_core (state_of x) = 4 /\
  CpuManager.GetCurrentCoreManager (state_of x) = Abort OutOfRange.
Proof.
  destruct (@CpuManager_RunLoop_leaves_active_core_past_the_end _ _ 10 true
              Demo.six_slices) as (Hactive & _ & Hcurrent).
  - reflexivity.
  - vm_compute. reflexivity.
  - split; assumption.
Defined.

(** X9 at work: the manager is entered while the CPU is halted and every
    core has a current thread and time slices left. *)
Lemma CpuManager_RunLoop_executes_nothing_while_halted_witness :
  let x := CpuManager.RunLoop 10 true Demo.halted_manager in
  occurrences is_arch_run (trace_of x) = 0 /\
  occurrences is_arch_step (trace_of x) = 0 /\
  halt_flag (gdb (CpuManager.sys (state_of x))) = true.
Proof.
  apply (@CpuManager_RunLoop_executes_nothing_while_halted _ _ 10 true
           Demo.halted_manager).
  - exact Demo_halt_respected.
  - reflexivity.
  - reflexivity.
Defined.

(** X10 at work: no time slice is left. *)
Lemma CpuManager_RunLoop_rotates_once_when_nothing_can_run_witness :
  let x := CpuManager.RunLoop 10 true Demo.out_of_slices in
  result x = Ok tt /\
  trace_of x =
    [EvIsServerEnabled false; EvTimingResetRun;
     EvTimingSwitchContext 0; EvTimingCanCurrentContextRun false;
     EvTimingCanCurrentContextRun false;
     EvTimingSwitchContext 1; EvTimingCanCurrentContextRun false;
     EvTimingCanCurrentContextRun false;
     EvTimingSwitchContext 2; EvTimingCanCurrentContextRun false;
     EvTimingCanCurrentContextRun false;
     EvTimingSwitchContext 3; EvTimingCanCurrentContextRun false;
     EvTimingCanCurrentContextRun false;
     EvIsConnected true].
Proof.
  destruct (@CpuManager_RunLoop_rotates_once_when_nothing_can_run _ _
              (fun s => Demo.slices (ext s) = 0) 9 true Demo.out_of_slices)
    as (Hresult & Htrace & _).
  - exact Demo_blocks_without_slices.
  - reflexivity.
  - reflexivity.
  - split; [exact Hresult | exact Htrace].
Defined.

(** ** CpuManager: building and destroying the core managers *)

Section CpuManagerLifecycle.
Context {World : Type} `{Collaborators World}.
Import CpuManager.

(** X11: after [Initialize], [GetCoreManager(index)] is the core manager
    built with that index for the four indices below [NUM_CPU_CORES], and
    a range error for every other index. *)
Theorem Initialize_builds_every_core_manager (m : State World) index :
  length (core_managers m) = NUM_CPU_CORES ->
  initialized (Initialize m) /\
  GetCoreManager index (Initialize m) =
    (if index <? NUM_CPU_CORES then Ok {| core_index := index |}
     else Abort OutOfRange).
Proof.
  intros Hlen. destruct m as [s cms ac]. cbn in Hlen.
  destruct cms as [|? [|? [|? [|? [|]]]]]; try discriminate Hlen.
  split; [reflexivity|].
  do 4 (destruct index as [|index]; [reflexivity|]). reflexivity.
Qed.

(** X12: [CpuManager::Shutdown] can be repeated: a second [Shutdown]
    returns as well and changes nothing; after it, [GetCoreManager]
    dereferences a null pointer for the four indices of the array and is
    a range error for every other index. *)
Theorem CpuManager_Shutdown_is_idempotent (m : State World) index :
  length (core_managers m) = NUM_CPU_CORES ->
  let after := state_of (Shutdown m) in
  result (Shutdown after) = Ok tt /\
  state_of (Shutdown after) = after /\
  GetCoreManager index after =
    (if index <? NUM_CPU_CORES then Abort NullDeref else Abort OutOfRange).
Proof.
  intros Hlen. destruct m as [s cms ac]. cbn in Hlen.
  destruct cms as [|? [|? [|? [|? [|]]]]]; try discriminate Hlen.
  cbv zeta. split; [reflexivity|]. split; [reflexivity|].
  do 4 (destruct index as [|index]; [reflexivity|]). reflexivity.
Qed.

End CpuManagerLifecycle.

(** X11 at work. *)
Lemma Initialize_builds_every_core_manager_witness :
  CpuManager.GetCoreManager 3 Demo.six_slices =
    Ok {| CpuManager.core_index := 3 |} /\
  CpuManager.GetCoreManager 4 Demo.six_slices = Abort OutOfRange.
Proof.
  split.
  - refine (proj2 (@Initialize_builds_every_core_manager _
                     {| CpuManager.sys := CpuManager.sys Demo.six_slices;
                        CpuManager.core_managers := [None; None; None; None];
                        CpuManager.active_core := 0 |} 3 _)).
    reflexivity.
  - refine (proj2 (@Initialize_builds_every_core_manager _
                     {| CpuManager.sys := CpuManager.sys Demo.six_slices;
                        CpuManager.core_managers := [None; None; None; None];
                        CpuManager.active_core := 0 |} 4 _)).
    reflexivity.
Defined.

(** X12 at work. *)
Lemma CpuManager_Shutdown_is_idempotent_witness :
  let after := state_of (CpuManager.Shutdown Demo.six_slices) in
  result (CpuManager.Shutdown after) = Ok tt /\
  CpuManager.GetCoreManager 0 after = Abort NullDeref.
Proof.
  destruct (@CpuManager_Shutdown_is_idempotent _ Demo.six_slices 0)
    as (Hresult & _ & Hget).
  - reflexivity.
  - split; [exact Hresult | exact Hget].
Defined.

(** ** CpuCoreManager: from Initialize to Shutdown *)

Section CpuCoreManagerLifecycle.
Context {World : Type}.
Import CpuCoreManager.

(** X13: the older manager's [Initialize] creates the barrier, the
    exclusive monitor for [NUM_CPU_CORES] cores and the four [Cpu]s:
    afterwards [GetExclusiveMonitor] returns the monitor and
    [GetCore(index)] the [Cpu] built with that index, a range error from
    [NUM_CPU_CORES] on; the helper threads and the thread map are not
    touched. *)
Theorem CpuCoreManager_Initialize_builds_everything (m : State World) index :
  length (cores m) = NUM_CPU_CORES ->
  let m' := Initialize m in
  cores_built m' /\
  barrier m' = Some Open /\
  result (GetExclusiveMonitor m') = Ok {| num_cores := NUM_CPU_CORES |} /\
  result (GetCore index m') =
    (if index <? NUM_CPU_CORES then Ok {| core_index := index |}
     else Abort OutOfRange) /\
  core_threads m' = core_threads m /\
  thread_to_cpu m' = thread_to_cpu m.
Proof.
  intros Hlen. destruct m as [s cs ths ttc bar mon ac]. cbn in Hlen.
  destruct cs as [|? [|? [|? [|? [|]]]]]; try discriminate Hlen.
  cbv zeta. repeat split; try reflexivity.
  do 4 (destruct index as [|index]; [reflexivity|]). reflexivity.
Qed.

(** [GetCurrentCore] as a function of the manager's state. *)
Lemma GetCurrentCore_result (m : State World) this_thread :
  result (GetCurrentCore this_thread m) =
    if use_multi_core (settings (sys m)) then
      match thread_to_cpu m !! this_thread with
      | Some (Some cpu) => Ok cpu
      | _ => Abort AssertFailed
      end
    else
      match cores m !! active_core m with
      | Some (Some cpu) => Ok cpu
      | Some None => Abort NullDeref
      | None => Abort OutOfRange
      end.
Proof.
  unfold GetCurrentCore. cbv [bind gets].
  destruct (use_multi_core (settings (sys m))).
  - destruct (thread_to_cpu m !! this_thread) as [[cpu|]|]; reflexivity.
  - destruct (cores m !! active_core m) as [[cpu|]|]; reflexivity.
Qed.

(** What [StartThreads] leaves in multi-core mode when the three slots
    for the helper threads are empty. *)
Lemma StartThreads_multi_core_exec (m : State World) this_thread new_id :
  cores_built m ->
  core_threads m = [None; None; None] ->
  use_multi_core (settings (sys m)) = true ->
  StartThreads this_thread new_id m =
    (Ok tt,
     set_thread_to_cpu
       (<[new_id 2 := Some {| core_index := 3 |}]>
          (<[new_id 1 := Some {| core_index := 2 |}]>
             (<[new_id 0 := Some {| core_index := 1 |}]>
                (<[this_thread := Some {| core_index := 0 |}]>
                   (thread_to_cpu m)))))
       (set_core_threads
          [Some (new_id 0); Some (new_id 1); Some (new_id 2)] m),
     [EvThreadSpawn 0; EvThreadSpawn 1; EvThreadSpawn 2]).
Proof.
  intros Hc Hths Hm. destruct m as [s cs ths ttc bar mon ac].
  unfold cores_built in Hc. cbn in *. subst cs ths.
  unfold StartThreads. cbv [bind gets modify call ret]. cbn. rewrite Hm.
  cbn. reflexivity.
Qed.

(** [StartThreads] in multi-core mode when the first occupied slot is
    slot [index]: the helper threads up to and including [index] are
    spawned, then the program is terminated. *)
Lemma StartThreads_occupied_exec (m : State World) this_thread new_id :
  cores_built m ->
  length (core_threads m) = 3 ->
  use_multi_core (settings (sys m)) = true ->
  forall index,
    (exists thread, core_threads m !! index = Some (Some thread)) ->
    (forall before, before < index -> core_threads m !! before = Some None) ->
    result (StartThreads this_thread new_id m) = Abort Terminated /\
    trace_of (StartThreads this_thread new_id m) =
      map EvThreadSpawn (seq 0 (S index)).
Proof.
  intros Hc Hlen Hm index [thread Hocc] Hfree.
  destruct m as [s cs ths ttc bar mon ac].
  unfold cores_built in Hc. cbn in *. subst cs.
  destruct ths as [|a [|b [|c [|]]]]; try discriminate Hlen.
  destruct index as [|[|[|index]]]; [| | |discriminate Hocc].
  - cbn in Hocc. injection Hocc as ->.
    unfold StartThreads. cbv [bind gets modify call ret]. cbn. rewrite Hm.
    cbn. split; reflexivity.
  - pose proof (Hfree 0 ltac:(lia)) as H0. cbn in H0, Hocc.
    injection H0 as ->. injection Hocc as ->.
    unfold StartThreads. cbv [bind gets modify call ret]. cbn. rewrite Hm.
    cbn. split; reflexivity.
  - pose proof (Hfree 0 ltac:(lia)) as H0.
    pose proof (Hfree 1 ltac:(lia)) as H1. cbn in H0, H1, Hocc.
    injection H0 as ->. injection H1 as ->. injection Hocc as ->.
    unfold StartThreads. cbv [bind gets modify call ret]. cbn. rewrite Hm.
    cbn. split; reflexivity.
Qed.

(** X14: in multi-core mode, on a manager whose three slots for the
    helper threads are empty (as they are before the first [StartThreads]
    and after [Shutdown]), [StartThreads] spawns the three helper threads
    in index order and returns; if the ids of the calling thread and of
    the helpers are pairwise different, then afterwards [GetCurrentCore]
    gives core 0 on the calling thread and core [index + 1] on helper
    [index], and the entries of all other threads in [thread_to_cpu] are
    as before. *)
Theorem StartThreads_registers_every_core_thread (m : State World)
    this_thread new_id :
  cores_built m ->
  core_threads m = [None; None; None] ->
  use_multi_core (settings (sys m)) = true ->
  NoDup [this_thread; new_id 0; new_id 1; new_id 2] ->
  let x := StartThreads this_thread new_id m in
  result x = Ok tt /\
  trace_of x = [EvThreadSpawn 0; EvThreadSpawn 1; EvThreadSpawn 2] /\
  result (GetCurrentCore this_thread (state_of x)) = Ok {| core_index := 0 |} /\
  (forall index, index < 3 ->
     result (GetCurrentCore (new_id index) (state_of x)) =
       Ok {| core_index := S index |}) /\
  (forall other,
     other <> this_thread -> (forall index, index < 3 -> other <> new_id index) ->
     thread_to_cpu (state_of x) !! other = thread_to_cpu m !! other).
Proof.
  intros Hc Hths Hm Hnd. cbv zeta.
  rewrite (StartThreads_multi_core_exec this_thread new_id Hc Hths Hm).
  cbn [result state_of trace_of fst snd].
  apply NoDup_cons in Hnd as [Hn0 Hnd].
  apply NoDup_cons in Hnd as [Hn1 Hnd].
  apply NoDup_cons in Hnd as [Hn2 _].
  apply not_elem_of_cons in Hn0 as [Ha Hn0].
  apply not_elem_of_cons in Hn0 as [Hb Hn0].
  apply not_elem_of_cons in Hn0 as [Hc' _].
  apply not_elem_of_cons in Hn1 as [Hd Hn1].
  apply not_elem_of_cons in Hn1 as [He _].
  apply not_elem_of_cons in Hn2 as [Hf _].
  split; [reflexivity|]. split; [reflexivity|].
  split; [|split]; [| intros index Hindex | ];
    rewrite ?GetCurrentCore_result;
    unfold set_thread_to_cpu, set_core_threads;
    cbn [sys settings thread_to_cpu]; rewrite ?Hm.
  - do 3 (rewrite lookup_insert_ne by congruence).
    rewrite lookup_insert_eq. reflexivity.
  - destruct index as [|[|[|index]]]; [| | |lia].
    + do 2 (rewrite lookup_insert_ne by congruence).
      rewrite lookup_insert_eq. reflexivity.
    + rewrite lookup_insert_ne by congruence.
      rewrite lookup_insert_eq. reflexivity.
    + rewrite lookup_insert_eq. reflexivity.
  - intros other Hthis Hnew.
    pose proof (Hnew 0 ltac:(lia)). pose proof (Hnew 1 ltac:(lia)).
    pose proof (Hnew 2 ltac:(lia)).
    do 4 (rewrite lookup_insert_ne by congruence). reflexivity.
Qed.

(** X24: [StartThreads] cannot be repeated in multi-core mode: when a
    slot of [core_threads] still holds a thread, the new thread for that
    slot is spawned, and assigning it to the slot destroys the joinable
    thread the slot held, which terminates the program.  The helper
    threads for the slots up to and including the first occupied one
    have been spawned by then; none is spawned after it. *)
Theorem StartThreads_over_a_live_thread_terminates (m : State World)
    this_thread new_id index thread :
  cores_built m ->
  length (core_threads m) = 3 ->
  use_multi_core (settings (sys m)) = true ->
  core_threads m !! index = Some (Some thread) ->
  (forall before, before < index -> core_threads m !! before = Some None) ->
  let x := StartThreads this_thread new_id m in
  result x = Abort Terminated /\
  trace_of x = map EvThreadSpawn (seq 0 (S index)).
Proof.
  intros Hc Hlen Hm Hocc Hfree. cbv zeta.
  apply StartThreads_occupied_exec; eauto.
Qed.

(** X15: in single-core mode [StartThreads] spawns no thread and leaves
    the helper-thread slots alone; its only effect is to bind the calling
    thread to [cores[0]]. *)
Theorem StartThreads_single_core_spawns_nothing (m : State World)
    this_thread new_id core0 :
  cores m !! 0 = Some core0 ->
  use_multi_core (settings (sys m)) = false ->
  let x := StartThreads this_thread new_id m in
  result x = Ok tt /\
  trace_of x = [] /\
  core_threads (state_of x) = core_threads m /\
  thread_to_cpu (state_of x) = <[this_thread := core0]> (thread_to_cpu m).
Proof.
  intros H0 Hm. cbv zeta. unfold StartThreads. cbv [bind gets modify ret].
  rewrite H0. cbn. rewrite Hm. cbn. repeat split; reflexivity.
Qed.

(** What [Shutdown] leaves of a running manager. *)
Lemma Shutdown_exec (m : State World) :
  running m ->
  result (Shutdown m) = Ok tt /\
  thread_to_cpu (state_of (Shutdown m)) = ∅ /\
  cores (state_of (Shutdown m)) = [None; None; None; None] /\
  barrier (state_of (Shutdown m)) = None /\
  active_core (state_of (Shutdown m)) = active_core m /\
  settings (sys (state_of (Shutdown m))) = settings (sys m).
Proof.
  intros [[b Hb] Hcores Hthreads Hlen].
  destruct m as [s cs ths ttc bar mon ac]. cbn in *. subst cs bar.
  unfold Shutdown.
  destruct (use_multi_core (settings s)) eqn:Hm.
  - destruct (Hthreads eq_refl) as (t1 & t2 & t3 & ->).
    cbv [bind gets call ret]. cbn. rewrite Hm. cbn. repeat split; reflexivity.
  - destruct ths as [|? [|? [|? [|]]]]; try discriminate Hlen.
    cbv [bind gets call ret]. cbn. rewrite Hm. cbn. repeat split; reflexivity.
Qed.

(** X16: after [Shutdown] of a running manager no thread has a current
    core: in multi-core mode [GetCurrentCore] fails its assertion on every
    host thread (the map is empty); in single-core mode it dereferences a
    destroyed [Cpu], or indexes [cores] out of range when [active_core]
    was left at [NUM_CPU_CORES]. *)
Theorem no_current_core_after_Shutdown (m : State World) this_thread :
  running m ->
  let after := state_of (Shutdown m) in
  result (GetCurrentCore this_thread after) =
    (if use_multi_core (settings (sys m)) then Abort AssertFailed
     else if active_core m <? NUM_CPU_CORES then Abort NullDeref
          else Abort OutOfRange).
Proof.
  intros Hr. cbv zeta.
  destruct (Shutdown_exec Hr) as (_ & Hmap & Hcores & _ & Hac & Hset).
  rewrite GetCurrentCore_result, Hset, Hmap, Hcores, Hac.
  destruct (use_multi_core (settings (sys m))).
  - rewrite lookup_empty. reflexivity.
  - destruct (active_core m) as [|[|[|[|n]]]]; reflexivity.
Qed.

(** X17: unlike the newer manager's, the older manager's [Shutdown]
    cannot be repeated: [Shutdown] destroys the barrier, and a second
    [Shutdown] starts by calling [NotifyEnd] through the null barrier
    pointer, before doing anything else. *)
Theorem second_Shutdown_dereferences_null_barrier (m : State World) :
  running m ->
  let after := state_of (Shutdown m) in
  Shutdown after = (Abort NullDeref, after, []).
Proof.
  intros Hr. cbv zeta.
  destruct (Shutdown_exec Hr) as (_ & _ & _ & Hbar & _).
  unfold Shutdown at 1. unfold bind at 1. rewrite Hbar. reflexivity.
Qed.

End CpuCoreManagerLifecycle.

(** The concrete manager after [StartThreads] is running. *)
Lemma started_multi_core_running : running Demo.started_multi_core.
Proof.
  constructor.
  - eexists. reflexivity.
  - reflexivity.
  - intros _. eexists _, _, _. reflexivity.
  - reflexivity.
Qed.

(** X13 at work. *)
Lemma CpuCoreManager_Initialize_builds_everything_witness :
  cores_built Demo.single_core /\
  result (CpuCoreManager.GetCore 2 Demo.single_core) =
    Ok {| CpuCoreManager.core_index := 2 |} /\
  result (CpuCoreManager.GetCore 7 Demo.single_core) = Abort OutOfRange.
Proof.
  pose proof (fun index =>
    @CpuCoreManager_Initialize_builds_everything _
      {| CpuCoreManager.sys :=
           Demo.system 5 (Demo.gdb_state false false false ∅) (Some 7) 6;
         CpuCoreManager.cores := [None; None; None; None];
         CpuCoreManager.core_threads := [None; None; None];
         CpuCoreManager.thread_to_cpu := ∅;
         CpuCoreManager.barrier := None;
         CpuCoreManager.exclusive_monitor := None;
         CpuCoreManager.active_core := 0 |} index eq_refl) as Hbuilt.
  split; [exact (proj1 (Hbuilt 0))|].
  split; [exact (proj1 (proj2 (proj2 (proj2 (Hbuilt 2)))))|].
  exact (proj1 (proj2 (proj2 (proj2 (Hbuilt 7))))).
Defined.

(** X14 at work: the manager's thread 100 and the helpers 101, 102,
    103. *)
Lemma StartThreads_registers_every_core_thread_witness :
  result (CpuCoreManager.GetCurrentCore 100 Demo.started_multi_core) =
    Ok {| CpuCoreManager.core_index := 0 |} /\
  result (CpuCoreManager.GetCurrentCore (Demo.helper_id 2)
            Demo.started_multi_core) =
    Ok {| CpuCoreManager.core_index := 3 |}.
Proof.
  destruct (@StartThreads_registers_every_core_thread _ Demo.multi_core 100
              Demo.helper_id) as (_ & _ & Hthis & Hhelper & _).
  - reflexivity.
  - reflexivity.
  - reflexivity.
  - apply (bool_decide_unpack _). vm_compute. exact I.
  - split; [exact Hthis|]. apply (Hhelper 2). lia.
Defined.

(** X24 at work: [StartThreads] on the manager that [StartThreads] has
    left, whose slot 0 holds helper thread 101. *)
Lemma StartThreads_over_a_live_thread_terminates_witness :
  let x := CpuCoreManager.StartThreads 100 (fun index => 201 + index)
             Demo.started_multi_core in
  result x = Abort Terminated /\
  trace_of x = [EvThreadSpawn 0].
Proof.
  apply (@StartThreads_over_a_live_thread_terminates _
           Demo.started_multi_core 100 (fun index => 201 + index) 0
           (Demo.helper_id 0)).
  - reflexivity.
  - reflexivity.
  - reflexivity.
  - reflexivity.
  - intros before Hbefore. lia.
Defined.

(** X15 at work. *)
Lemma StartThreads_single_core_spawns_nothing_witness :
  let x := CpuCoreManager.StartThreads 100 Demo.helper_id Demo.single_core in
  trace_of x = [] /\
  CpuCoreManager.core_threads (state_of x) = [None; None; None].
Proof.
  destruct (@StartThreads_single_core_spawns_nothing _ Demo.single_core 100
              Demo.helper_id (Some {| CpuCoreManager.core_index := 0 |}))
    as (_ & Htrace & Hthreads & _).
  - reflexivity.
  - reflexivity.
  - split; [exact Htrace | exact Hthreads].
Defined.

(** X16 at work: after the shutdown even the manager's own thread has no
    core. *)
Lemma no_current_core_after_Shutdown_witness :
  result (CpuCoreManager.GetCurrentCore 100
            (state_of (CpuCoreManager.Shutdown Demo.started_multi_core))) =
    Abort AssertFailed.
Proof.
  exact (@no_current_core_after_Shutdown _ Demo.started_multi_core 100
           started_multi_core_running).
Defined.

(** X17 at work. *)
Lemma second_Shutdown_dereferences_null_barrier_witness :
  result (CpuCoreManager.Shutdown
            (state_of (CpuCoreManager.Shutdown Demo.started_multi_core))) =
    Abort NullDeref.
Proof.
  rewrite (@second_Shutdown_dereferences_null_barrier _
             Demo.started_multi_core started_multi_core_running).
  reflexivity.
Defined.

(** ** CpuCoreManager::RunLoop *)

Section OlderRunLoopFacts.
Context {World : Type} `{Collaborators World}.
Variable Cpu_RunLoop : nat -> bool -> M (Sys World) unit.
Hypothesis Cpu_quiet : quiet_cpu Cpu_RunLoop.
Import CpuCoreManager.

Lemma cores_built_lookup (m : State World) c :
  cores_built m -> c < NUM_CPU_CORES ->
  cores m !! c = Some (Some {| core_index := c |}).
Proof.
  unfold cores_built. intros -> Hc.
  do 4 (destruct c as [|c]; [reflexivity|]).
  unfold NUM_CPU_CORES in Hc. lia.
Qed.

(** One turn of the older [for] loop. *)
Lemma older_for_active_core_step todo tight keep (m : State World) :
  cores_built m -> active_core m < NUM_CPU_CORES ->
  let c := active_core m in
  let s1 := SwitchContext c (sys m) in
  let can := CanCurrentContextRun s1 in
  let s2 := if can then state_of (Cpu_RunLoop c tight s1) else s1 in
  let k := CanCurrentContextRun s2 in
  let m2 := set_active_core (S c) (set_sys s2 m) in
  let y := for_active_core Cpu_RunLoop todo tight (keep || k) m2 in
  for_active_core Cpu_RunLoop (S todo) tight keep m =
    (result y, state_of y,
     EvTimingSwitchContext c :: EvTimingCanCurrentContextRun can
       :: (if can then EvCoreRunLoop c tight
                         :: trace_of (Cpu_RunLoop c tight s1)
           else [])
       ++ EvTimingCanCurrentContextRun k :: trace_of y).
Proof using Cpu_quiet.
  intros Hi Hc. cbv zeta.
  cbn [for_active_core].
  cbv [bind in_sys lift gets modify call ask ret id].
  cbn [sys set_sys set_active_core cores active_core].
  destruct (CanCurrentContextRun (SwitchContext (active_core m) (sys m))) eqn:Hcan.
  - cbn [sys set_sys set_active_core cores active_core].
    rewrite (cores_built_lookup Hi Hc). cbn [deref_slot deref_ptr]. cbv [ret].
    cbn [core_index sys set_sys set_active_core cores active_core].
    destruct (Cpu_quiet (active_core m) tight
                (SwitchContext (active_core m) (sys m))) as [Hr _].
    destruct (Cpu_RunLoop (active_core m) tight
                (SwitchContext (active_core m) (sys m))) as [[r s'] t] eqn:E.
    cbn [result fst] in Hr. subst r.
    cbn [sys set_sys set_active_core cores active_core state_of
         trace_of fst snd app].
    match goal with |- context [for_active_core Cpu_RunLoop todo tight ?kk ?mm] =>
      rewrite (triple_eta (for_active_core Cpu_RunLoop todo tight kk mm)) end.
    reflexivity.
  - cbn [sys set_sys set_active_core cores active_core state_of
         trace_of fst snd app].
    match goal with |- context [for_active_core Cpu_RunLoop todo tight ?kk ?mm] =>
      rewrite (triple_eta (for_active_core Cpu_RunLoop todo tight kk mm)) end.
    reflexivity.
Qed.

Lemma older_for_active_core_runs tight todo : forall keep (m : State World),
  cores_built m -> active_core m + todo = NUM_CPU_CORES ->
  exists keep' m' t,
    for_active_core Cpu_RunLoop todo tight keep m = (Ok keep', m', t) /\
    cores m' = cores m /\
    thread_to_cpu m' = thread_to_cpu m /\
    active_core m' = NUM_CPU_CORES /\
    forall rest,
      visits tight (active_core m) todo keep keep' (manager_view t ++ rest) rest.
Proof using Cpu_quiet.
  induction todo as [|todo IH]; intros keep m Hi Hc.
  - exists keep, m, []. rewrite Nat.add_0_r in Hc.
    repeat split; try assumption. intros rest. constructor.
  - assert (Hlt : active_core m < NUM_CPU_CORES) by lia.
    rewrite (older_for_active_core_step todo tight keep Hi Hlt).
    set (c := active_core m).
    set (s1 := SwitchContext c (sys m)).
    set (s2 := if CanCurrentContextRun s1
               then state_of (Cpu_RunLoop c tight s1) else s1).
    set (m2 := set_active_core (S c) (set_sys s2 m)).
    destruct (IH (keep || CanCurrentContextRun s2) m2)
      as (k' & m' & t & E & Hcores & Hmap & Hac & Hv).
    { exact Hi. }
    { subst m2 c. cbn [active_core set_active_core]. lia. }
    rewrite E. cbn [result state_of trace_of fst snd].
    eexists _, _, _. split; [reflexivity|].
    split; [exact Hcores|]. split; [exact Hmap|]. split; [exact Hac|].
    intros rest. specialize (Hv rest).
    change (active_core m2) with (S c) in Hv.
    econstructor; [|exact Hv].
    destruct (Cpu_quiet c tight s1) as [_ Hview].
    destruct (CanCurrentContextRun s1).
    + cbn [manager_view List.filter manager_event app].
      fold (manager_view
              (trace_of (Cpu_RunLoop c tight s1)
                 ++ EvTimingCanCurrentContextRun (CanCurrentContextRun s2) :: t)).
      rewrite manager_view_app, Hview. cbn. constructor.
    + cbn. constructor.
Qed.

(** One turn of the older [do ... while]. *)
Lemma older_do_while_step fuel tight (m : State World) :
  cores_built m ->
  exists keep m1 t,
    for_active_core Cpu_RunLoop NUM_CPU_CORES tight false
      (set_active_core 0 (set_sys (HandlePacket (sys m)) m))
      = (Ok keep, m1, t) /\
    cores m1 = cores m /\
    thread_to_cpu m1 = thread_to_cpu m /\
    active_core m1 = NUM_CPU_CORES /\
    (forall rest, visits tight 0 NUM_CPU_CORES false keep
                         (manager_view t ++ rest) rest) /\
    do_while Cpu_RunLoop (S fuel) tight m =
      if keep then
        let y := do_while Cpu_RunLoop fuel tight m1 in
        (result y, state_of y, EvHandlePacket :: t ++ trace_of y)
      else (Ok tt, m1, EvHandlePacket :: t).
Proof using Cpu_quiet.
  intros Hi.
  destruct (older_for_active_core_runs tight NUM_CPU_CORES false
              (m := set_active_core 0 (set_sys (HandlePacket (sys m)) m)))
    as (keep & m1 & t & E & Hcores & Hmap & Hac & Hv).
  { exact Hi. }
  { reflexivity. }
  exists keep, m1, t. split; [exact E|]. split; [exact Hcores|].
  split; [exact Hmap|]. split; [exact Hac|]. split; [exact Hv|].
  cbn [do_while].
  cbv [bind in_sys lift call modify]. cbn [sys set_sys].
  rewrite E. destruct keep.
  - rewrite (triple_eta (do_while Cpu_RunLoop fuel tight m1)) at 1.
    cbn [app]. reflexivity.
  - cbv [ret]. cbn [app]. rewrite app_nil_r. reflexivity.
Qed.

Lemma older_do_while_runs tight fuel : forall (m : State World),
  cores_built m ->
  let x := do_while Cpu_RunLoop fuel tight m in
  (result x = Ok tt \/ result x = Abort OutOfFuel) /\
  older_rotations tight (returned (result x)) (manager_view (trace_of x)) /\
  cores (state_of x) = cores m /\
  thread_to_cpu (state_of x) = thread_to_cpu m /\
  (result x = Ok tt -> active_core (state_of x) = NUM_CPU_CORES) /\
  occurrences is_handle_packet (trace_of x) = rotation_count (trace_of x).
Proof using Cpu_quiet.
  induction fuel as [|fuel IH]; intros m Hi; cbv zeta.
  - cbn. repeat split; auto; try constructor. discriminate.
  - destruct (older_do_while_step fuel tight Hi)
      as (keep & m1 & t & E & Hcores & Hmap & Hac & Hv & Estep).
    rewrite Estep. clear Estep.
    assert (Hi1 : cores_built m1) by (unfold cores_built; rewrite Hcores; exact Hi).
    destruct (rotation_occurrences t Hv) as (Hcount & _ & _).
    assert (Hpackets : occurrences is_handle_packet t = 0).
    { rewrite <- (occurrences_manager_view is_handle_packet t)
        by (intros [] He; try discriminate He; reflexivity).
      specialize (Hv []). rewrite app_nil_r in Hv.
      rewrite (visits_occurrences is_handle_packet)
        with (1 := fun _ => eq_refl) (2 := fun _ _ => eq_refl) (3 := Hv).
      reflexivity. }
    unfold rotation_count in *.
    destruct keep.
    + destruct (IH m1 Hi1) as (Hres & Hrot & Hc' & Hm' & Ha' & Ho').
      cbn [result state_of trace_of fst snd].
      split; [exact Hres|]. split; [|split; [|split; [|split]]].
      * change (manager_view (EvHandlePacket :: ?l))
          with (EvHandlePacket :: manager_view l).
        rewrite manager_view_app.
        eapply older_rotations_more; [apply Hv | exact Hrot].
      * congruence.
      * congruence.
      * exact Ha'.
      * rewrite !occurrences_cons, !occurrences_app, Hpackets, Hcount, Ho'.
        reflexivity.
    + cbn [result state_of trace_of fst snd returned].
      split; [left; reflexivity|]. split; [|split; [|split; [|split]]]; auto.
      * change (manager_view (EvHandlePacket :: ?l))
          with (EvHandlePacket :: manager_view l).
        apply older_rotations_last.
        specialize (Hv []). rewrite app_nil_r in Hv. exact Hv.
      * rewrite !occurrences_cons, Hpackets, Hcount. reflexivity.
Qed.

(** The rotations and the budget: the loop is out of budget only after
    as many rotations as the budget has units, and when it returns it
    has made at least one. *)
Lemma older_do_while_budget tight fuel : forall (m : State World),
  cores_built m ->
  let x := do_while Cpu_RunLoop fuel tight m in
  (result x = Abort OutOfFuel -> rotation_count (trace_of x) = fuel) /\
  (result x = Ok tt -> 1 <= rotation_count (trace_of x) <= fuel).
Proof using Cpu_quiet.
  induction fuel as [|fuel IH]; intros m Hi; cbv zeta.
  - split; [reflexivity | discriminate].
  - destruct (older_do_while_step fuel tight Hi)
      as (keep & m1 & t & E & Hcores & Hmap & Hac & Hv & Estep).
    rewrite Estep. clear Estep.
    assert (Hi1 : cores_built m1) by (unfold cores_built; rewrite Hcores; exact Hi).
    destruct (rotation_occurrences t Hv) as (Hcount & _ & _).
    unfold rotation_count in *.
    destruct keep.
    + destruct (IH m1 Hi1) as [Hout Hback].
      cbn [result state_of trace_of fst snd].
      rewrite occurrences_cons, occurrences_app, Hcount.
      cbn [is_rotation_start].
      split.
      * intros Hr. rewrite (Hout Hr). reflexivity.
      * intros Hr. specialize (Hback Hr). lia.
    + cbn [result state_of trace_of fst snd].
      rewrite occurrences_cons, Hcount. cbn.
      split; [discriminate | intros _; lia].
Qed.

(** [RunLoop] is the re-binding of the calling thread, [ResetRun], and
    the loop. *)
Lemma older_RunLoop_exec this_thread fuel tight (m : State World) :
  cores_built m ->
  let m0 := set_sys (ResetRun (sys m))
              (set_thread_to_cpu
                 (<[this_thread := Some {| core_index := 0 |}]> (thread_to_cpu m))
                 m) in
  let y := do_while Cpu_RunLoop fuel tight m0 in
  RunLoop Cpu_RunLoop this_thread fuel tight m =
    (result y, state_of y, EvTimingResetRun :: trace_of y).
Proof.
  intros Hi. cbv zeta. unfold RunLoop.
  unfold bind at 1. rewrite (cores_built_lookup Hi (c := 0)) by (unfold NUM_CPU_CORES; lia).
  cbn [get_slot]. cbv [ret]. 
  cbv [bind modify in_sys lift call]. cbn [sys set_sys set_thread_to_cpu].
  match goal with |- context [do_while Cpu_RunLoop fuel tight ?mm] =>
    rewrite (triple_eta (do_while Cpu_RunLoop fuel tight mm)) end.
  reflexivity.
Qed.

(** X18: the older [CpuCoreManager::RunLoop], with [Cpu]s whose
    [RunLoop] returns: after [ResetRun], every rotation starts with
    [GDBStub::HandlePacket] and visits the cores 0, 1, 2, 3 in order; a
    rotation is followed by another exactly when [CanCurrentContextRun]
    answered true after some core's turn, with no bound on their number;
    so the packet pump is called once per rotation.  The rotations are
    made: a run that is still going on when the budget of the model is
    used up has made exactly as many rotations as the budget has units,
    and a run that has returned has made at least one. *)
Theorem older_RunLoop_repeats_while_runnable this_thread fuel tight
    (m : State World) :
  cores_built m ->
  let x := RunLoop Cpu_RunLoop this_thread fuel tight m in
  (result x = Ok tt \/ result x = Abort OutOfFuel) /\
  (exists body,
     manager_view (trace_of x) = EvTimingResetRun :: body /\
     older_rotations tight (returned (result x)) body) /\
  occurrences is_handle_packet (trace_of x) = rotation_count (trace_of x) /\
  (result x = Abort OutOfFuel -> rotation_count (trace_of x) = fuel) /\
  (result x = Ok tt -> 1 <= rotation_count (trace_of x) <= fuel).
Proof using Cpu_quiet.
  intros Hi. cbv zeta. rewrite (older_RunLoop_exec this_thread fuel tight Hi).
  cbn [result trace_of fst snd].
  destruct (older_do_while_runs tight fuel
              (m := set_sys (ResetRun (sys m))
                      (set_thread_to_cpu
                         (<[this_thread := Some {| core_index := 0 |}]>
                            (thread_to_cpu m)) m)) Hi)
    as (Hres & Hrot & _ & _ & _ & Hocc).
  destruct (older_do_while_budget tight fuel
              (m := set_sys (ResetRun (sys m))
                      (set_thread_to_cpu
                         (<[this_thread := Some {| core_index := 0 |}]>
                            (thread_to_cpu m)) m)) Hi)
    as [Hout Hback].
  split; [exact Hres|]. split; [|split; [|split]].
  - eexists. split; [reflexivity | exact Hrot].
  - unfold rotation_count in *. rewrite !occurrences_cons, Hocc. reflexivity.
  - intros Hr. unfold rotation_count in *. rewrite occurrences_cons.
    exact (Hout Hr).
  - intros Hr. unfold rotation_count in *. rewrite occurrences_cons.
    exact (Hback Hr).
Qed.

(** X19: the older [RunLoop] binds the calling host thread to core 0
    (whatever core it was bound to) and leaves every other entry of
    [thread_to_cpu] and the [Cpu]s alone.  So in multi-core mode
    [GetCurrentCore] on that thread is core 0 afterwards; in single-core
    mode [active_core] is left at [NUM_CPU_CORES] when the loop returns,
    and [GetCurrentCore] indexes [cores] out of range. *)
Theorem older_RunLoop_rebinds_calling_thread this_thread fuel tight
    (m : State World) :
  cores_built m ->
  let x := RunLoop Cpu_RunLoop this_thread fuel tight m in
  thread_to_cpu (state_of x) =
    <[this_thread := Some {| core_index := 0 |}]> (thread_to_cpu m) /\
  cores (state_of x) = cores m /\
  (use_multi_core (settings (sys (state_of x))) = true ->
   result (GetCurrentCore this_thread (state_of x)) =
     Ok {| core_index := 0 |}) /\
  (use_multi_core (settings (sys (state_of x))) = false ->
   result x = Ok tt ->
   result (GetCurrentCore this_thread (state_of x)) = Abort OutOfRange).
Proof using Cpu_quiet.
  intros Hi. cbv zeta. rewrite (older_RunLoop_exec this_thread fuel tight Hi).
  cbn [result state_of fst snd].
  destruct (older_do_while_runs tight fuel
              (m := set_sys (ResetRun (sys m))
                      (set_thread_to_cpu
                         (<[this_thread := Some {| core_index := 0 |}]>
                            (thread_to_cpu m)) m)) Hi)
    as (_ & _ & Hcores & Hmap & Hac & _).
  cbn [cores thread_to_cpu set_sys set_thread_to_cpu] in Hcores, Hmap.
  split; [exact Hmap|]. split; [exact Hcores|]. split.
  - intros Hm. rewrite GetCurrentCore_result, Hm, Hmap, lookup_insert_eq.
    reflexivity.
  - intros Hm Hr. rewrite GetCurrentCore_result, Hm, Hcores, (Hac Hr).
    unfold cores_built in Hi. rewrite Hi. reflexivity.
Qed.

End OlderRunLoopFacts.


(** X18 at work: the older manager with the later [CoreManager::RunLoop]
    as the [Cpu]s' loop and six time slices: two rotations that run
    cores, a third that finds none runnable. *)
Lemma older_RunLoop_repeats_while_runnable_witness :
  let x := CpuCoreManager.RunLoop CoreManager.RunLoop 100 10 true
             Demo.single_core in
  result x = Ok tt /\
  rotation_count (trace_of x) = 3 /\
  occurrences is_handle_packet (trace_of x) = 3.
Proof.
  destruct (@older_RunLoop_repeats_while_runnable _ _ CoreManager.RunLoop
              core_RunLoop_returns 100 10 true Demo.single_core)
    as (_ & _ & Hpackets & _).
  - reflexivity.
  - cbv zeta. split; [vm_compute; reflexivity|].
    split; [vm_compute; reflexivity|].
    rewrite Hpackets. vm_compute. reflexivity.
Defined.

(** X19 at work: in multi-core mode helper thread 102, bound to core 2
    by [StartThreads], runs the loop and finds itself on core 0. *)
Lemma older_RunLoop_rebinds_calling_thread_witness :
  result (CpuCoreManager.GetCurrentCore 102 Demo.started_multi_core) =
    Ok {| CpuCoreManager.core_index := 2 |} /\
  result (CpuCoreManager.GetCurrentCore 102
            (state_of (CpuCoreManager.RunLoop CoreManager.RunLoop 102 10 true
                         Demo.started_multi_core))) =
    Ok {| CpuCoreManager.core_index := 0 |}.
Proof.
  split; [vm_compute; reflexivity|].
  destruct (@older_RunLoop_rebinds_calling_thread _ _ CoreManager.RunLoop
              core_RunLoop_returns 102 10 true Demo.started_multi_core)
    as (_ & _ & Hmulti & _).
  - reflexivity.
  - apply Hmulti. vm_compute. reflexivity.
Defined.

(** ** The SVC wrappers *)

Lemma to_u32_range x : (0 <= Kernel.to_u32 x < 2 ^ 32)%Z.
Proof. unfold Kernel.to_u32. apply Z.mod_pos_bound. lia. Qed.

Lemma to_u64_range x : (0 <= Kernel.to_u64 x < 2 ^ 64)%Z.
Proof. unfold Kernel.to_u64. apply Z.mod_pos_bound. lia. Qed.

Lemma to_s32_range x : (- 2 ^ 31 <= Kernel.to_s32 x < 2 ^ 31)%Z.
Proof.
  unfold Kernel.to_s32.
  pose proof (Z.mod_pos_bound (x + 2 ^ 31) (2 ^ 32) ltac:(lia)). lia.
Qed.

Lemma to_s64_range x : (- 2 ^ 63 <= Kernel.to_s64 x < 2 ^ 63)%Z.
Proof.
  unfold Kernel.to_s64.
  pose proof (Z.mod_pos_bound (x + 2 ^ 63) (2 ^ 64) ltac:(lia)). lia.
Qed.

Lemma to_s64_same_bits x : (Kernel.to_s64 x mod 2 ^ 64 = x mod 2 ^ 64)%Z.
Proof.
  unfold Kernel.to_s64.
  rewrite Zminus_mod, Zmod_mod, <- Zminus_mod.
  f_equal. lia.
Qed.

Lemma to_s32_same_bits x : (Kernel.to_s32 x mod 2 ^ 32 = x mod 2 ^ 32)%Z.
Proof.
  unfold Kernel.to_s32.
  rewrite Zminus_mod, Zmod_mod, <- Zminus_mod.
  f_equal. lia.
Qed.

Section SvcWrapFacts.
Context {System : Type} `{Kernel.ArmInterface System}.
Import Kernel.

(** X20: the wrapper of a handler with two [u32] out-parameters leaves
    the result code in register 0 and the two values in registers 1 and
    2, each zero-extended to 64 bits, and every other register as the
    handler left it: the three register writes do not disturb one
    another. *)
Theorem SvcWrap_writes_back_both_out_parameters
    (func : System -> Z -> Z -> Z * Z * Z * System) (s : System)
    raw param_1 param_2 rest :
  register_file ->
  func s 0%Z 0%Z = (raw, param_1, param_2, rest) ->
  let after := SvcWrap_pu32_pu32 func s in
  GetReg 0 after = to_u32 raw /\
  GetReg 1 after = to_u32 param_1 /\
  GetReg 2 after = to_u32 param_2 /\
  (forall n, (0 <= n <= 2)%Z -> (0 <= GetReg n after < 2 ^ 32)%Z) /\
  (forall n, (n < 0 \/ 2 < n)%Z -> GetReg n after = GetReg n rest).
Proof.
  intros [Hsame Hother] Hfunc. cbv zeta.
  unfold SvcWrap_pu32_pu32, FuncReturn. rewrite Hfunc.
  assert (H0 : GetReg 0 (SetReg 0 (to_u32 raw)
                 (SetReg 2 (to_u32 param_2)
                    (SetReg 1 (to_u32 param_1) rest))) = to_u32 raw)
    by apply Hsame.
  assert (H1 : GetReg 1 (SetReg 0 (to_u32 raw)
                 (SetReg 2 (to_u32 param_2)
                    (SetReg 1 (to_u32 param_1) rest))) = to_u32 param_1)
    by (do 2 (rewrite Hother by lia); apply Hsame).
  assert (H2 : GetReg 2 (SetReg 0 (to_u32 raw)
                 (SetReg 2 (to_u32 param_2)
                    (SetReg 1 (to_u32 param_1) rest))) = to_u32 param_2)
    by (rewrite Hother by lia; apply Hsame).
  split; [exact H0|]. split; [exact H1|]. split; [exact H2|]. split.
  - intros n Hn.
    assert (Hcases : n = 0%Z \/ n = 1%Z \/ n = 2%Z) by lia.
    destruct Hcases as [-> | [-> | ->]];
      [rewrite H0 | rewrite H1 | rewrite H2]; apply to_u32_range.
  - intros n Hn. do 3 (rewrite Hother by lia). reflexivity.
Qed.

(** X21: the wrapper of a handler [(u32, u32*, u64* )] takes the [u32]
    argument from register 2 (its low 32 bits), not from register 0, and
    afterwards register 2 no longer holds it: it holds the 64-bit
    out-parameter, register 1 the 32-bit one and register 0 the result
    code. *)
Theorem SvcWrap_takes_the_handle_from_X2_and_overwrites_it
    (func : System -> Z -> Z -> Z -> Z * Z * Z * System) (s : System)
    raw param_1 param_2 rest :
  register_file ->
  func s (GetReg 2 s mod 2 ^ 32)%Z 0%Z 0%Z = (raw, param_1, param_2, rest) ->
  let after := SvcWrap_u32_pu32_pu64 func s in
  GetReg 0 after = to_u32 raw /\
  GetReg 1 after = to_u32 param_1 /\
  GetReg 2 after = to_u64 param_2 /\
  (forall n, (n < 0 \/ 2 < n)%Z -> GetReg n after = GetReg n rest).
Proof.
  intros [Hsame Hother] Hfunc. cbv zeta.
  unfold SvcWrap_u32_pu32_pu64, FuncReturn, Param.
  change (to_u32 (GetReg 2 s)) with (GetReg 2 s mod 2 ^ 32)%Z.
  rewrite Hfunc. split; [|split; [|split]].
  - apply Hsame.
  - do 2 (rewrite Hother by lia). apply Hsame.
  - rewrite Hother by lia. apply Hsame.
  - intros n Hn. do 3 (rewrite Hother by lia). reflexivity.
Qed.

(** X22: what the wrapper of a handler [(u64, u32, s32, s64)] hands
    over: register 0 as it is, and for registers 1, 2 and 3 the one value
    in the range of the parameter's type that agrees with the register on
    the low 32, 32 and 64 bits; the result code goes to register 0 of the
    system the handler leaves. *)
Theorem SvcWrap_hands_over_values_of_the_cast_types
    (func : System -> Z -> Z -> Z -> Z -> Z * System) (s : System) :
  exists a1 a2 a3,
    ((0 <= a1 < 2 ^ 32)%Z /\ (a1 mod 2 ^ 32 = GetReg 1 s mod 2 ^ 32)%Z) /\
    ((- 2 ^ 31 <= a2 < 2 ^ 31)%Z /\
     (a2 mod 2 ^ 32 = GetReg 2 s mod 2 ^ 32)%Z) /\
    ((- 2 ^ 63 <= a3 < 2 ^ 63)%Z /\
     (a3 mod 2 ^ 64 = GetReg 3 s mod 2 ^ 64)%Z) /\
    SvcWrap_u64_u32_s32_s64 func s =
      SetReg 0 (fst (func s (GetReg 0 s) a1 a2 a3) mod 2 ^ 32)%Z
             (snd (func s (GetReg 0 s) a1 a2 a3)).
Proof.
  exists (to_u32 (GetReg 1 s)), (to_s32 (GetReg 2 s)), (to_s64 (GetReg 3 s)).
  split; [split; [apply to_u32_range | apply Zmod_mod]|].
  split; [split; [apply to_s32_range | apply to_s32_same_bits]|].
  split; [split; [apply to_s64_range | apply to_s64_same_bits]|].
  unfold SvcWrap_u64_u32_s32_s64, FuncReturn, Param.
  destruct (func s (GetReg 0 s) (to_u32 (GetReg 1 s)) (to_s32 (GetReg 2 s))
              (to_s64 (GetReg 3 s))) as [raw rest].
  reflexivity.
Qed.

End SvcWrapFacts.

(** Registers as a function form a register file. *)
Lemma Demo_register_file : @register_file Demo.Registers _.
Proof.
  split.
  - intros n v s. cbn. rewrite Z.eqb_refl. reflexivity.
  - intros n n' v s Hn. cbn.
    destruct (Z.eqb_spec n' n) as [->|_]; [contradiction | reflexivity].
Qed.

(** X20 at work. *)
Lemma SvcWrap_writes_back_both_out_parameters_witness :
  let after := Kernel.SvcWrap_pu32_pu32 Demo.two_results Demo.handle_in_X2 in
  Kernel.GetReg 0 after = 0%Z /\
  Kernel.GetReg 1 after = 7%Z /\
  Kernel.GetReg 2 after = 8%Z /\
  Kernel.GetReg 3 after = 30%Z.
Proof.
  destruct (@SvcWrap_writes_back_both_out_parameters _ _ Demo.two_results
              Demo.handle_in_X2 0%Z 7%Z 8%Z Demo.handle_in_X2)
    as (H0 & H1 & H2 & _ & Hrest).
  - exact Demo_register_file.
  - reflexivity.
  - cbv zeta. rewrite H0, H1, H2, (Hrest 3%Z) by lia.
    repeat split; reflexivity.
Defined.

(** X21 at work: register 2 holds the handle 9 with a junk bit above it;
    the handler receives 9, and register 2 holds the 64-bit result
    afterwards. *)
Lemma SvcWrap_takes_the_handle_from_X2_and_overwrites_it_witness :
  let after :=
    Kernel.SvcWrap_u32_pu32_pu64 Demo.handle_info Demo.handle_in_X2 in
  Kernel.GetReg 2 Demo.handle_in_X2 = (2 ^ 32 + 9)%Z /\
  Kernel.GetReg 1 after = 9%Z /\
  Kernel.GetReg 2 after = (2 ^ 40)%Z.
Proof.
  destruct (@SvcWrap_takes_the_handle_from_X2_and_overwrites_it _ _
              Demo.handle_info Demo.handle_in_X2 0%Z 9%Z (2 ^ 40)%Z
              Demo.handle_in_X2)
    as (_ & H1 & H2 & _).
  - exact Demo_register_file.
  - reflexivity.
  - cbv zeta. rewrite H1, H2. repeat split; reflexivity.
Defined.
